(** * APS nodes: response normalisation, request building and the item loop

    A shallow embedding of the two n8n nodes of this repository,
    [ApsDataManagement] and [ApsModelDerivative], and proofs about
    the entity flattening ([simplifyEntity]), the shape dispatch of the
    response normaliser, the URLs and bodies of the requests, and the
    per-item error handling of [execute]. *)

From Stdlib Require Import List String Ascii Bool Arith ZArith NArith Lia.
From Stdlib.Strings Require Import Byte.
From Stdlib Require Import DecimalString.
Import ListNotations.

Open Scope string_scope.
Open Scope list_scope.

(** JavaScript string concatenation (template literals and [+]). *)
Infix "+++" := String.append (right associativity, at level 60).

(** ** JavaScript values

    A string is the sequence of the bytes of its UTF-8 form, a lone
    surrogate being written as its three bytes (ED, then A0..BF, then
    a continuation byte); its length as a JavaScript string is not
    modelled.  Numbers are only carried
    around by the program, never computed with; they are integers here.
    A [Buffer] is a value of its own, as the transport returns one for
    the binary operations.  An object is the list of its own properties
    in property order; a JavaScript object never holds a key twice. *)

#[local] Set Warnings "-register-all".

Inductive value : Type :=
| JUndefined
| JNull
| JBool (b : bool)
| JNumber (n : Z)
| JString (s : string)
| JBuffer (bytes : list byte)
| JArray (elems : list value)
| JObject (props : list (string * value)).

Definition object := list (string * value).

Inductive js_type := TUndefined | TObject | TBoolean | TNumber | TString.

(** [typeof v]: null, arrays and buffers are all ['object']. *)
Definition typeof (v : value) : js_type :=
  match v with
  | JUndefined => TUndefined
  | JBool _ => TBoolean
  | JNumber _ => TNumber
  | JString _ => TString
  | JNull | JBuffer _ | JArray _ | JObject _ => TObject
  end.

Definition is_object_type (v : value) : bool :=
  match typeof v with TObject => true | _ => false end.

Definition is_string_type (v : value) : bool :=
  match typeof v with TString => true | _ => false end.

(** ToBoolean. *)
Definition truthy (v : value) : bool :=
  match v with
  | JUndefined | JNull => false
  | JBool b => b
  | JNumber n => negb (n =? 0)%Z
  | JString s => negb (s =? "")
  | JBuffer _ | JArray _ | JObject _ => true
  end.

Definition isArray (v : value) : bool :=
  match v with JArray _ => true | _ => false end.

Definition isBuffer (v : value) : bool :=
  match v with JBuffer _ => true | _ => false end.

(** *** Objects as ordered property lists *)

Fixpoint lookup (k : string) (o : object) : option value :=
  match o with
  | [] => None
  | (k', v) :: r => if k =? k' then Some v else lookup k r
  end.

Definition has_key (k : string) (o : object) : bool :=
  match lookup k o with Some _ => true | None => false end.

Definition keys (o : object) : list string := map fst o.

Definition string_of_index (n : N) : string :=
  NilEmpty.string_of_uint (N.to_uint n).

(** An array index is a key that is the canonical decimal form of an
    integer below 2^32 - 1; such keys come first, in ascending order,
    in the property order of an object. *)
Definition array_index (k : string) : option N :=
  match NilEmpty.uint_of_string k with
  | Some u =>
      let n := N.of_uint u in
      if (string_of_index n =? k) && (n <? 4294967295)%N then Some n else None
  | None => None
  end.

Fixpoint replace (k : string) (v : value) (o : object) : object :=
  match o with
  | [] => []
  | (k', v') :: r => if k =? k' then (k, v) :: r else (k', v') :: replace k v r
  end.

Fixpoint insert_index (n : N) (k : string) (v : value) (o : object) : object :=
  match o with
  | [] => [(k, v)]
  | (k', v') :: r =>
      match array_index k' with
      | Some m => if (n <? m)%N then (k, v) :: o
                  else (k', v') :: insert_index n k v r
      | None => (k, v) :: o
      end
  end.

(** Defining the property [k] of an object: an existing key keeps its
    place and takes the new value, a new key is added in property
    order. *)
Definition set (k : string) (v : value) (o : object) : object :=
  if has_key k o then replace k v o
  else match array_index k with
       | Some n => insert_index n k v o
       | None => o ++ [(k, v)]
       end.

(** The properties [ps] defined one after the other on [o]: an object
    literal [{ ...o, k1: v1, ... }], and the spread [{ o..., ...ps }]. *)
Definition define_all (ps : list (string * value)) (o : object) : object :=
  fold_left (fun acc kv => set (fst kv) (snd kv) acc) ps o.

Fixpoint indexed_from {A : Type} (n : N) (l : list A) : list (string * A) :=
  match l with
  | [] => []
  | x :: r => (string_of_index n, x) :: indexed_from (N.succ n) r
  end.

Definition number_of_byte (b : byte) : value := JNumber (Z.of_N (Byte.to_N b)).

(** The own enumerable properties an object spread copies.  The program
    spreads only values whose [typeof] is ['object'] (a string is never
    spread); numbers, booleans, null and undefined have none. *)
Definition own_props (v : value) : list (string * value) :=
  match v with
  | JObject o => o
  | JArray l => indexed_from 0 l
  | JBuffer bs => indexed_from 0 (map number_of_byte bs)
  | _ => []
  end.

(** [v.k] for the property names the program reads ([id], [type],
    [links], [self], [href], [attributes], [data]): none of them is an
    index or a built-in property of a string, number, boolean, array or
    buffer, so only an object can hold one. *)
Definition get (v : value) (k : string) : value :=
  match v with
  | JObject o => match lookup k o with Some x => x | None => JUndefined end
  | _ => JUndefined
  end.

(** [v?.k] *)
Definition opt_get (v : value) (k : string) : value :=
  match v with
  | JUndefined | JNull => JUndefined
  | _ => get v k
  end.

(** [a ?? b] *)
Definition coalesce (a b : value) : value :=
  match a with
  | JUndefined | JNull => b
  | _ => a
  end.

(** ** Entity flattening *)

(** [entity?.links?.self?.href ?? entity?.links?.href ?? undefined] *)
Definition entity_href (entity : value) : value :=
  coalesce
    (coalesce (opt_get (opt_get (opt_get entity "links") "self") "href")
              (opt_get (opt_get entity "links") "href"))
    JUndefined.

(** [entity?.attributes && typeof entity.attributes === 'object'
     ? entity.attributes : {}] *)
Definition entity_attributes (entity : value) : value :=
  if truthy (opt_get entity "attributes")
     && is_object_type (get entity "attributes")
  then get entity "attributes"
  else JObject [].

Definition simplifyEntity (entity : value) : value :=
  let href := entity_href entity in
  let attributes := entity_attributes entity in
  JObject
    (define_all (own_props attributes)
       [("id", opt_get entity "id"); ("type", opt_get entity "type");
        ("href", href)]).

(** ** Output items *)

(** [pairedItem] is written both as [{ item: i }] and as the bare
    number [i]. *)
Inductive PairedItem :=
| PairedObj (item : nat)
| PairedNum (item : nat).

Record OutputItem := mkItem {
  json : value;
  pairedItem : PairedItem;
  binary : option value
}.

Definition pairedItemIndex (x : OutputItem) : nat :=
  match pairedItem x with PairedObj i => i | PairedNum i => i end.

(** ** Errors and the state of [execute]

    The body of the loop pushes on the array [returnData] and may
    throw: a computation takes the array and gives the array back
    together with its result or the error thrown. *)

(** A [NodeOperationError]: its message and the [itemIndex] of its
    context, which it may lack. *)
Record NodeOperationError := mkError {
  errorMessage : string;
  itemIndex : option nat
}.

(** What a [throw] carries: a [NodeOperationError], or any other error
    (a URIError, an error of the transport, a missing parameter), of
    which the program reads the message only. *)
Inductive Thrown :=
| PlainError (message : string)
| OperationError (e : NodeOperationError).

(** [(error as Error).message] *)
Definition message_of (error : Thrown) : string :=
  match error with
  | PlainError message => message
  | OperationError e => errorMessage e
  end.

(** [new NodeOperationError(node, error, { itemIndex: i })]: the
    constructor of n8n-workflow returns [error] itself when it already
    is a NodeOperationError, with the item index it has or lacks;
    otherwise the new error takes the message of [error] and carries
    [i]. *)
Definition new_NodeOperationError (error : Thrown) (i : nat)
  : NodeOperationError :=
  match error with
  | OperationError e => e
  | PlainError message => mkError message (Some i)
  end.

Inductive result (A : Type) : Type :=
| Ok (a : A)
| Raise (error : Thrown).
Arguments Ok {A} a.
Arguments Raise {A} error.

Definition M (A : Type) : Type :=
  list OutputItem -> list OutputItem * result A.

Definition ret {A} (a : A) : M A := fun rd => (rd, Ok a).

Definition bind {A B} (m : M A) (f : A -> M B) : M B :=
  fun rd =>
    match m rd with
    | (rd', Ok a) => f a rd'
    | (rd', Raise msg) => (rd', Raise msg)
    end.

Definition lift {A} (r : result A) : M A := fun rd => (rd, r).

Definition push (x : OutputItem) : M unit := fun rd => (rd ++ [x], Ok tt).

Notation "x <- m ;; k" := (bind m (fun x => k))
  (at level 61, m at next level, right associativity).
Notation "m ;;; k" := (bind m (fun _ => k))
  (at level 61, right associativity).

(** [for (const element of l) { f element }] *)
Fixpoint for_of {A} (l : list A) (f : A -> M unit) : M unit :=
  match l with
  | [] => ret tt
  | x :: r => f x ;;; for_of r f
  end.

(** ** The response normaliser of the Data Management node *)

Definition normalize (simplify splitItems : bool) (i : nat) (body : value)
  : M unit :=
  if isArray (opt_get body "data") then
    if splitItems then
      for_of (match get body "data" with JArray l => l | _ => [] end)
        (fun element =>
           let json := if simplify then simplifyEntity element else element in
           push (mkItem json (PairedObj i) None))
    else if simplify then
      let data :=
        map simplifyEntity
            (match get body "data" with JArray l => l | _ => [] end) in
      push (mkItem (JObject [("data", JArray data)]) (PairedObj i) None)
    else
      push (mkItem body (PairedObj i) None)
  else if truthy body && is_object_type body
          && truthy (get body "data") && is_object_type (get body "data")
  then
    let target := get body "data" in
    let json := if simplify then simplifyEntity target else target in
    push (mkItem json (PairedObj i) None)
  else
    push (mkItem body (PairedObj i) None).

(** The items one normalisation appends to an empty output. *)
Definition normalized (simplify splitItems : bool) (i : nat) (body : value)
  : list OutputItem :=
  fst (normalize simplify splitItems i body []).

(** ** Percent-encoding and base64 *)

Definition is_alnum (c : ascii) : bool :=
  let n := nat_of_ascii c in
  (((48 <=? n) && (n <=? 57)) || ((65 <=? n) && (n <=? 90))
   || ((97 <=? n) && (n <=? 122)))%nat.

Fixpoint mem_char (c : ascii) (s : string) : bool :=
  match s with
  | EmptyString => false
  | String d r => Ascii.eqb c d || mem_char c r
  end.

(** The characters [encodeURIComponent] leaves as they are: letters,
    digits and the marks [- _ . ! ~ * ' ( )]. *)
Definition uriUnescaped (c : ascii) : bool :=
  is_alnum c || mem_char c "-_.!~*'()".

Definition hex_digit (n : nat) : ascii :=
  match String.get n "0123456789ABCDEF" with
  | Some c => c
  | None => "0"%char
  end.

Definition percent_encode (c : ascii) : string :=
  let n := nat_of_ascii c in
  String "%" (String (hex_digit (n / 16)) (String (hex_digit (n mod 16)) "")).

(** What [encodeURIComponent] returns when it returns: every byte of
    the UTF-8 form that is not left as it is becomes [%XX].  The call
    itself, which throws on a lone surrogate, is
    [encodeURIComponent_call] below. *)
Fixpoint encodeURIComponent (s : string) : string :=
  match s with
  | EmptyString => ""
  | String c r =>
      if uriUnescaped c then String c (encodeURIComponent r)
      else percent_encode c +++ encodeURIComponent r
  end.

(** A lone surrogate in a string: the byte ED followed by a byte of
    A0..BF.  (In the UTF-8 form of a string without lone surrogates ED
    is followed by 80..9F, and a surrogate pair is one four-byte
    character.) *)
Fixpoint has_lone_surrogate (s : string) : bool :=
  match s with
  | String c (String d _ as r) =>
      ((nat_of_ascii c =? 237) && (160 <=? nat_of_ascii d)
       && (nat_of_ascii d <=? 191))%nat
      || has_lone_surrogate r
  | _ => false
  end.

(** The URIError of [encodeURIComponent], with Node's message. *)
Definition URIError : Thrown := PlainError "URI malformed".

(** The call [encodeURIComponent(s)]: it throws a URIError when [s]
    holds a lone surrogate, and returns the encoded form otherwise. *)
Definition encodeURIComponent_call (s : string) : result string :=
  if has_lone_surrogate s then Raise URIError
  else Ok (encodeURIComponent s).

Definition base64_digit (n : N) : ascii :=
  match String.get (N.to_nat n)
          "ABCDEFGHIJKLMNOPQRSTUVWXYZabcdefghijklmnopqrstuvwxyz0123456789+/"
  with
  | Some c => c
  | None => "="%char
  end.

Fixpoint base64_of (bs : list N) : string :=
  match bs with
  | [] => ""
  | [a] =>
      String (base64_digit (a / 4))
        (String (base64_digit ((a mod 4) * 16)) "==")
  | [a; b] =>
      String (base64_digit (a / 4))
        (String (base64_digit ((a mod 4) * 16 + b / 16))
           (String (base64_digit ((b mod 16) * 4)) "="))
  | a :: b :: c :: r =>
      String (base64_digit (a / 4))
        (String (base64_digit ((a mod 4) * 16 + b / 16))
           (String (base64_digit ((b mod 16) * 4 + c / 64))
              (String (base64_digit (c mod 64)) (base64_of r))))
  end%N.

(** [buffer.toString('base64')] *)
Definition toString_base64 (bs : list byte) : string :=
  base64_of (map Byte.to_N bs).

(** ** The host

    What [this] gives to [execute].  [getNodeParameter(name, i, fallback)]
    is read at the type the program casts its result to; it fails with
    the error of the host.  The answer of
    [requestWithAuthentication] may differ from one item to the next,
    so the item index is given to it. *)

Record Host (Operation : Type) := mkHost {
  getInputData : list value;
  getOperation : nat -> result Operation;
  getString : string -> nat -> option string -> result string;
  getBoolean : string -> nat -> option bool -> result bool;
  getNumber : string -> nat -> option Z -> result Z;
  getStrings : string -> nat -> option (list string) -> result (list string);
  requestWithAuthentication : nat -> string -> value -> result value;
  prepareBinaryData : value -> string -> string -> result value;
  continueOnFail : bool
}.
Arguments getInputData {Operation} h.
Arguments getOperation {Operation} h i.
Arguments getString {Operation} h name i fallback.
Arguments getBoolean {Operation} h name i fallback.
Arguments getNumber {Operation} h name i fallback.
Arguments getStrings {Operation} h name i fallback.
Arguments requestWithAuthentication {Operation} h i credentials options.
Arguments prepareBinaryData {Operation} h data fileName mimeType.
Arguments continueOnFail {Operation} h.

Definition rbind {A B} (r : result A) (f : A -> result B) : result B :=
  match r with
  | Ok a => f a
  | Raise msg => Raise msg
  end.

Notation "x <~ r ;; k" := (rbind r (fun x => k))
  (at level 61, r at next level, right associativity).

Definition BASE_URL : string := "https://developer.api.autodesk.com".

Definition credentials : string := "autodeskPlatformServicesOAuth2Api".

(** An object literal [{ k1: v1, ... }], spreads flattened in. *)
Definition literal (ps : list (string * value)) : value :=
  JObject (define_all ps []).

(** [o.k = v] on an object. *)
Definition assign (o : value) (k : string) (v : value) : value :=
  match o with
  | JObject ps => JObject (set k v ps)
  | _ => o
  end.

(** The item pushed by the [catch] block. *)
Definition error_item (msg : string) (i : nat) : OutputItem :=
  mkItem (JObject [("error", JString msg)]) (PairedNum i) None.

(** ** The loop of [execute]

    Both nodes run the same loop around their [try] block: [loop n i]
    is the loop at index [i] with [n] items left.  The result is the
    array [returnData] when the loop ends and the error thrown, if
    any; without one [execute] returns [[returnData]]. *)

Section Loop.
Variable try_block : nat -> M unit.
Variable continue_on_fail : bool.

Definition iteration (i : nat) (returnData : list OutputItem)
  : list OutputItem * option NodeOperationError :=
  match try_block i returnData with
  | (rd, Ok _) => (rd, None)
  | (rd, Raise error) =>
      if continue_on_fail
      then (rd ++ [error_item (message_of error) i], None)
      else (rd, Some (new_NodeOperationError error i))
  end.

Fixpoint loop (n i : nat) (returnData : list OutputItem)
  : list OutputItem * option NodeOperationError :=
  match n with
  | 0 => (returnData, None)
  | S n' =>
      match iteration i returnData with
      | (rd, None) => loop n' (S i) rd
      | (rd, Some e) => (rd, Some e)
      end
  end.
End Loop.

(** [typeof body === 'string'] then [JSON.parse(body)], the string kept
    when it is not valid JSON. *)
Definition parse_if_string (JSON_parse : string -> option value)
  (response : value) : value :=
  match response with
  | JString s =>
      match JSON_parse s with
      | Some v => v
      | None => response
      end
  | _ => response
  end.

(** ** The Data Management node *)

Module ApsDataManagement.

Inductive Operation :=
| getHubs | getProjects | getTopFolders | getItems | getItemVersions
| listBuckets | createBucket | getBucketDetails | deleteBucket
| uploadObject | downloadObject | getObjectDetails | deleteObject
| copyObject.

Section Node.
(** [JSON.parse], [None] when it throws, and
    [Buffer.from(text, 'base64')]. *)
Variable JSON_parse : string -> option value.
Variable Buffer_from_base64 : string -> list byte.
Variable h : Host Operation.

(** The [switch] that sets [url]; it has no case for the storage
    operations, which leave [url] empty.  Each [encodeURIComponent(x)]
    of a template literal is a call that may throw: the calls are made
    in the order of the template, after the parameters are read, and
    [x_uri] is what the call for [x] returned. *)
Definition switch_url (i : nat) (operation : Operation) : result string :=
  match operation with
  | getHubs => Ok (BASE_URL +++ "/project/v1/hubs")
  | getProjects =>
      hubId <~ getString h "hubId" i None ;;
      hubId_uri <~ encodeURIComponent_call hubId ;;
      Ok (BASE_URL +++ "/project/v1/hubs/" +++ hubId_uri
          +++ "/projects")
  | getTopFolders =>
      projectId <~ getString h "projectId" i None ;;
      projectId_uri <~ encodeURIComponent_call projectId ;;
      Ok (BASE_URL +++ "/project/v1/projects/"
          +++ projectId_uri +++ "/topFolders")
  | getItems =>
      projectId <~ getString h "projectId" i None ;;
      folderId <~ getString h "folderId" i None ;;
      projectId_uri <~ encodeURIComponent_call projectId ;;
      folderId_uri <~ encodeURIComponent_call folderId ;;
      Ok (BASE_URL +++ "/data/v1/projects/"
          +++ projectId_uri +++ "/folders/"
          +++ folderId_uri +++ "/contents")
  | getItemVersions =>
      projectId <~ getString h "projectId" i None ;;
      itemId <~ getString h "itemId" i None ;;
      projectId_uri <~ encodeURIComponent_call projectId ;;
      itemId_uri <~ encodeURIComponent_call itemId ;;
      Ok (BASE_URL +++ "/data/v1/projects/"
          +++ projectId_uri +++ "/items/"
          +++ itemId_uri +++ "/versions")
  | _ => Ok ""
  end.

Definition accept_json : string * value :=
  ("Accept", JString "application/vnd.api+json, application/json;q=0.9").

(** [requestOptions] as it is handed to the transport. *)
Definition build_request (i : nat) (operation : Operation)
  : result value :=
  url <~ switch_url i operation ;;
  let requestOptions :=
    literal [("method", JString "GET"); ("url", JString url);
             ("json", JBool true); ("headers", literal [accept_json])] in
  match operation with
  | listBuckets =>
      region <~ getString h "region" i (Some "US") ;;
      limit <~ getNumber h "limit" i (Some 10%Z) ;;
      Ok (literal
            (own_props requestOptions
             ++ [("url", JString (BASE_URL +++ "/oss/v2/buckets"));
                 ("headers",
                  literal [accept_json; ("region", JString region)]);
                 ("qs", literal [("limit", JNumber limit)])]))
  | createBucket =>
      newBucketKey <~ getString h "newBucketKey" i None ;;
      policyKey <~ getString h "policyKey" i None ;;
      region <~ getString h "region" i (Some "US") ;;
      Ok (literal
            [("method", JString "POST");
             ("url", JString (BASE_URL +++ "/oss/v2/buckets"));
             ("body", literal [("bucketKey", JString newBucketKey);
                               ("policyKey", JString policyKey)]);
             ("json", JBool true);
             ("headers",
              literal [("Content-Type", JString "application/json");
                       ("region", JString region)])])
  | getBucketDetails =>
      bucketKey <~ getString h "bucketKey" i None ;;
      bucketKey_uri <~ encodeURIComponent_call bucketKey ;;
      Ok (literal
            (own_props requestOptions
             ++ [("url", JString (BASE_URL +++ "/oss/v2/buckets/"
                                  +++ bucketKey_uri
                                  +++ "/details"))]))
  | deleteBucket =>
      bucketKey <~ getString h "bucketKey" i None ;;
      bucketKey_uri <~ encodeURIComponent_call bucketKey ;;
      Ok (literal
            (own_props requestOptions
             ++ [("method", JString "DELETE");
                 ("url", JString (BASE_URL +++ "/oss/v2/buckets/"
                                  +++ bucketKey_uri))]))
  | uploadObject =>
      bucketKey <~ getString h "bucketKey" i None ;;
      objectName <~ getString h "objectName" i None ;;
      fileContent <~ getString h "fileContent" i None ;;
      contentType <~
        getString h "contentType" i (Some "application/octet-stream") ;;
      binaryData <~ getBoolean h "binaryData" i (Some false) ;;
      bucketKey_uri <~ encodeURIComponent_call bucketKey ;;
      objectName_uri <~ encodeURIComponent_call objectName ;;
      Ok (literal
            [("method", JString "PUT");
             ("url",
              JString (BASE_URL +++ "/oss/v2/buckets/"
                        +++ bucketKey_uri +++ "/objects/"
                        +++ objectName_uri));
             ("body", if binaryData
                      then JBuffer (Buffer_from_base64 fileContent)
                      else JString fileContent);
             ("headers", literal [("Content-Type", JString contentType)]);
             ("json", JBool false)])
  | downloadObject =>
      bucketKey <~ getString h "bucketKey" i None ;;
      objectName <~ getString h "objectName" i None ;;
      bucketKey_uri <~ encodeURIComponent_call bucketKey ;;
      objectName_uri <~ encodeURIComponent_call objectName ;;
      Ok (literal
            (own_props requestOptions
             ++ [("url",
                  JString (BASE_URL +++ "/oss/v2/buckets/"
                        +++ bucketKey_uri +++ "/objects/"
                        +++ objectName_uri));
                 ("encoding", JNull); ("json", JBool false)]))
  | getObjectDetails =>
      bucketKey <~ getString h "bucketKey" i None ;;
      objectName <~ getString h "objectName" i None ;;
      bucketKey_uri <~ encodeURIComponent_call bucketKey ;;
      objectName_uri <~ encodeURIComponent_call objectName ;;
      Ok (literal
            (own_props requestOptions
             ++ [("url",
                  JString (BASE_URL +++ "/oss/v2/buckets/"
                        +++ bucketKey_uri +++ "/objects/"
                        +++ objectName_uri
                        +++ "/details"))]))
  | deleteObject =>
      bucketKey <~ getString h "bucketKey" i None ;;
      objectName <~ getString h "objectName" i None ;;
      bucketKey_uri <~ encodeURIComponent_call bucketKey ;;
      objectName_uri <~ encodeURIComponent_call objectName ;;
      Ok (literal
            (own_props requestOptions
             ++ [("method", JString "DELETE");
                 ("url",
                  JString (BASE_URL +++ "/oss/v2/buckets/"
                        +++ bucketKey_uri +++ "/objects/"
                        +++ objectName_uri))]))
  | copyObject =>
      bucketKey <~ getString h "bucketKey" i None ;;
      objectName <~ getString h "objectName" i None ;;
      newObjectName <~ getString h "newObjectName" i None ;;
      bucketKey_uri <~ encodeURIComponent_call bucketKey ;;
      objectName_uri <~ encodeURIComponent_call objectName ;;
      newObjectName_uri <~ encodeURIComponent_call newObjectName ;;
      Ok (literal
            (own_props requestOptions
             ++ [("method", JString "PUT");
                 ("url",
                  JString (BASE_URL +++ "/oss/v2/buckets/"
                        +++ bucketKey_uri +++ "/objects/"
                        +++ objectName_uri
                        +++ "/copyTo/"
                        +++ newObjectName_uri))]))
  | _ => Ok requestOptions
  end.

(** The body of the [try] block for item [i]; the [console.log] of the
    request is left out. *)
Definition try_block (i : nat) : M unit :=
  operation <- lift (getOperation h i) ;;
  requestOptions <- lift (build_request i operation) ;;
  response <-
    lift (requestWithAuthentication h i credentials requestOptions) ;;
  let body := parse_if_string JSON_parse response in
  simplify <- lift (getBoolean h "simplify" i (Some true)) ;;
  splitItems <- lift (getBoolean h "splitItems" i (Some true)) ;;
  normalize simplify splitItems i body.

Definition execute : list OutputItem * option NodeOperationError :=
  loop try_block (continueOnFail h) (List.length (getInputData h)) 0 [].
End Node.

End ApsDataManagement.

(** ** The Model Derivative node *)

Module ApsModelDerivative.

Inductive Operation :=
| createJob | getManifest | deleteManifest | getMetadata
| getMetadataTree | getThumbnail.

Definition is_getThumbnail (operation : Operation) : bool :=
  match operation with getThumbnail => true | _ => false end.

(** [o.k] rewritten in place: [f] applied to the value under [k]. *)
Definition update (o : value) (k : string) (f : value -> value) : value :=
  assign o k (f (get o k)).

(** [a[0]] rewritten in place. *)
Definition update_first (a : value) (f : value -> value) : value :=
  match a with
  | JArray (x :: r) => JArray (f x :: r)
  | _ => a
  end.

(** [body.output.formats[0].views = views] *)
Definition assign_views (body views : value) : value :=
  update body "output" (fun output =>
    update output "formats" (fun formats =>
      update_first formats (fun format => assign format "views" views))).

Section Node.
Variable JSON_parse : string -> option value.
Variable h : Host Operation.

(** The [switch] that builds [requestOptions]. *)
Definition build_request (i : nat) (operation : Operation) (urn : string)
  : result value :=
  match operation with
  | createJob =>
      outputFormat <~ getString h "outputFormat" i None ;;
      forceRegenerate <~ getBoolean h "forceRegenerate" i (Some false) ;;
      advancedOutputSettings <~
        getBoolean h "advancedOutputSettings" i (Some false) ;;
      let body :=
        literal
          [("input", literal [("urn", JString urn)]);
           ("output",
            literal
              [("formats",
                JArray [literal [("type", JString outputFormat)]])])] in
      body <~
        (if advancedOutputSettings then
           views <~ getStrings h "views" i (Some ["2d"; "3d"]) ;;
           Ok (assign_views body (JArray (map JString views)))
         else Ok body) ;;
      let requestOptions :=
        literal
          [("method", JString "POST");
           ("url",
            JString (BASE_URL +++ "/modelderivative/v2/designdata/job"));
           ("body", body);
           ("json", JBool true);
           ("headers",
            literal [("Content-Type", JString "application/json")])] in
      Ok (if forceRegenerate
          then assign requestOptions "qs" (literal [("force", JBool true)])
          else requestOptions)
  | getManifest =>
      acceptEncoding <~ getString h "acceptEncoding" i (Some "") ;;
      urn_uri <~ encodeURIComponent_call urn ;;
      let requestOptions :=
        literal [("method", JString "GET");
                 ("url",
                  JString (BASE_URL +++ "/modelderivative/v2/designdata/"
                          +++ urn_uri +++ "/manifest"));
                 ("json", JBool true)] in
      Ok (if truthy (JString acceptEncoding)
          then assign requestOptions "headers"
                 (literal [("Accept-Encoding", JString acceptEncoding)])
          else requestOptions)
  | deleteManifest =>
      urn_uri <~ encodeURIComponent_call urn ;;
      Ok (literal [("method", JString "DELETE");
                   ("url",
                    JString (BASE_URL +++ "/modelderivative/v2/designdata/"
                          +++ urn_uri +++ "/manifest"));
                   ("json", JBool true)])
  | getMetadata =>
      urn_uri <~ encodeURIComponent_call urn ;;
      Ok (literal [("method", JString "GET");
                   ("url",
                    JString (BASE_URL +++ "/modelderivative/v2/designdata/"
                          +++ urn_uri +++ "/metadata"));
                   ("json", JBool true)])
  | getMetadataTree =>
      guid <~ getString h "guid" i None ;;
      forceGetTree <~ getBoolean h "forceGetTree" i (Some false) ;;
      urn_uri <~ encodeURIComponent_call urn ;;
      guid_uri <~ encodeURIComponent_call guid ;;
      let requestOptions :=
        literal [("method", JString "GET");
                 ("url",
                  JString (BASE_URL +++ "/modelderivative/v2/designdata/"
                          +++ urn_uri +++ "/metadata/"
                          +++ guid_uri));
                 ("json", JBool true)] in
      Ok (if forceGetTree
          then assign requestOptions "qs"
                 (literal [("forceget", JBool true)])
          else requestOptions)
  | getThumbnail =>
      width <~ getNumber h "width" i (Some 400%Z) ;;
      height <~ getNumber h "height" i (Some 400%Z) ;;
      urn_uri <~ encodeURIComponent_call urn ;;
      Ok (literal
            [("method", JString "GET");
             ("url",
              JString (BASE_URL +++ "/modelderivative/v2/designdata/"
                          +++ urn_uri +++ "/thumbnail"));
             ("qs", literal [("width", JNumber width);
                             ("height", JNumber height)]);
             ("encoding", JNull);
             ("json", JBool false);
             ("headers",
              literal [("Accept", JString "image/png, application/json")])])
  end.

(** The item pushed for a thumbnail returned as a buffer. *)
Definition thumbnail_item (i : nat) (bytes : list byte) (data : value)
  : OutputItem :=
  mkItem
    (literal [("thumbnail", JString (toString_base64 bytes));
              ("contentType", JString "image/png")])
    (PairedObj i)
    (Some (literal [("data", data)])).

(** The body of the [try] block for item [i]. *)
Definition try_block (i : nat) : M unit :=
  operation <- lift (getOperation h i) ;;
  urn <- lift (getString h "urn" i None) ;;
  requestOptions <- lift (build_request i operation urn) ;;
  response <-
    lift (requestWithAuthentication h i credentials requestOptions) ;;
  if is_getThumbnail operation && truthy response && isBuffer response
  then
    data <- lift (prepareBinaryData h response "thumbnail.png" "image/png") ;;
    push (thumbnail_item i
            (match response with JBuffer bs => bs | _ => [] end) data)
  else
    let body := parse_if_string JSON_parse response in
    push (mkItem body (PairedObj i) None).

Definition execute : list OutputItem * option NodeOperationError :=
  loop try_block (continueOnFail h) (List.length (getInputData h)) 0 [].
End Node.

End ApsModelDerivative.

(** ** Vocabulary of the statements *)

(** The identity and link fields [simplifyEntity] extracts from the
    entity itself. *)
Definition extracted (entity : value) (k : string) : value :=
  if k =? "id" then opt_get entity "id"
  else if k =? "type" then opt_get entity "type"
  else if k =? "href" then entity_href entity
  else JUndefined.

Definition has_field (v : value) (k : string) : bool :=
  match v with
  | JObject o => has_key k o
  | _ => false
  end.

Fixpoint chars (s : string) : list ascii :=
  match s with
  | EmptyString => []
  | String c r => c :: chars r
  end.

Fixpoint count_slash (s : string) : nat :=
  match s with
  | EmptyString => 0
  | String c r => (if Ascii.eqb c "/" then 1 else 0) + count_slash r
  end.

(** The reserved characters of a URI: the set [; / ? : @ & = + $ ,]
    that ECMAScript calls uriReserved, and [# [ ]]. *)
Definition uriReserved (c : ascii) : bool := mem_char c ";/?:@&=+$,#[]".

Definition is_hex (c : ascii) : bool := mem_char c "0123456789ABCDEF".

(** A string made of characters left as they are and of [%XX]
    triplets. *)
Fixpoint percent_encoded (s : string) : bool :=
  match s with
  | EmptyString => true
  | String c r =>
      if Ascii.eqb c "%" then
        match r with
        | String a (String b r') => is_hex a && is_hex b && percent_encoded r'
        | _ => false
        end
      else uriUnescaped c && percent_encoded r
  end.

(** A path pattern: literal text and the places of the parameters. *)
Inductive piece :=
| Lit (text : string)
| Par (name : string).

Fixpoint fill (arg : string -> string) (t : list piece) : string :=
  match t with
  | [] => ""
  | Lit s :: r => s +++ fill arg r
  | Par p :: r => arg p +++ fill arg r
  end.

Fixpoint params (t : list piece) : list string :=
  match t with
  | [] => []
  | Lit _ :: r => params r
  | Par p :: r => p :: params r
  end.

(** The value the host gives for a required string parameter. *)
Definition param_value {Op} (h : Host Op) (i : nat) (p : string) : string :=
  match getString h p i None with
  | Ok v => v
  | Raise _ => ""
  end.

(** The path patterns of the Data Management operations. *)
Definition DM_template (op : ApsDataManagement.Operation) : list piece :=
  match op with
  | ApsDataManagement.getHubs => [Lit "/project/v1/hubs"]
  | ApsDataManagement.getProjects =>
      [Lit "/project/v1/hubs/"; Par "hubId"; Lit "/projects"]
  | ApsDataManagement.getTopFolders =>
      [Lit "/project/v1/projects/"; Par "projectId"; Lit "/topFolders"]
  | ApsDataManagement.getItems =>
      [Lit "/data/v1/projects/"; Par "projectId"; Lit "/folders/";
       Par "folderId"; Lit "/contents"]
  | ApsDataManagement.getItemVersions =>
      [Lit "/data/v1/projects/"; Par "projectId"; Lit "/items/";
       Par "itemId"; Lit "/versions"]
  | ApsDataManagement.listBuckets => [Lit "/oss/v2/buckets"]
  | ApsDataManagement.createBucket => [Lit "/oss/v2/buckets"]
  | ApsDataManagement.getBucketDetails =>
      [Lit "/oss/v2/buckets/"; Par "bucketKey"; Lit "/details"]
  | ApsDataManagement.deleteBucket =>
      [Lit "/oss/v2/buckets/"; Par "bucketKey"]
  | ApsDataManagement.uploadObject
  | ApsDataManagement.downloadObject
  | ApsDataManagement.deleteObject =>
      [Lit "/oss/v2/buckets/"; Par "bucketKey"; Lit "/objects/";
       Par "objectName"]
  | ApsDataManagement.getObjectDetails =>
      [Lit "/oss/v2/buckets/"; Par "bucketKey"; Lit "/objects/";
       Par "objectName"; Lit "/details"]
  | ApsDataManagement.copyObject =>
      [Lit "/oss/v2/buckets/"; Par "bucketKey"; Lit "/objects/";
       Par "objectName"; Lit "/copyTo/"; Par "newObjectName"]
  end.

(** The path patterns of the Model Derivative operations. *)
Definition MD_template (op : ApsModelDerivative.Operation) : list piece :=
  match op with
  | ApsModelDerivative.createJob => [Lit "/modelderivative/v2/designdata/job"]
  | ApsModelDerivative.getManifest | ApsModelDerivative.deleteManifest =>
      [Lit "/modelderivative/v2/designdata/"; Par "urn"; Lit "/manifest"]
  | ApsModelDerivative.getMetadata =>
      [Lit "/modelderivative/v2/designdata/"; Par "urn"; Lit "/metadata"]
  | ApsModelDerivative.getMetadataTree =>
      [Lit "/modelderivative/v2/designdata/"; Par "urn"; Lit "/metadata/";
       Par "guid"]
  | ApsModelDerivative.getThumbnail =>
      [Lit "/modelderivative/v2/designdata/"; Par "urn"; Lit "/thumbnail"]
  end.

(** ** Sample values *)

Definition entity_with_id_attribute : value :=
  JObject [("id", JString "a");
           ("attributes", JObject [("id", JString "b")])].

Definition list_entity : value :=
  JObject [("id", JString "a"); ("type", JString "items");
           ("attributes", JObject [("name", JString "x")]);
           ("links", JObject [("self", JObject [("href", JString "u")])])].

Definition flat_record : value :=
  JObject [("id", JString "a"); ("type", JString "items");
           ("href", JString "u"); ("name", JString "x")].

Definition list_body : value := JObject [("data", JArray [list_entity])].

Definition empty_list_body : value :=
  JObject [("jsonapi", JObject [("version", JString "1.0")]);
           ("data", JArray [])].

Definition status_body : value :=
  JObject [("status", JString "success"); ("region", JString "US")].

(** The items one pass of the loop (the [try] block and its [catch])
    appends for item [i]. *)
Definition emitted (try_block : nat -> M unit) (continue_on_fail : bool)
  (i : nat) : list OutputItem :=
  fst (iteration try_block continue_on_fail i []).

(** The runs of the two nodes: the [try] block, the continue-on-failure
    policy, the number of input items and the outcome of [execute]. *)
Inductive node_run :
  (nat -> M unit) -> bool -> nat ->
  list OutputItem * option NodeOperationError -> Prop :=
| run_DataManagement JSON_parse Buffer_from_base64
    (h : Host ApsDataManagement.Operation) :
    node_run (ApsDataManagement.try_block JSON_parse Buffer_from_base64 h)
             (continueOnFail h) (List.length (getInputData h))
             (ApsDataManagement.execute JSON_parse Buffer_from_base64 h)
| run_ModelDerivative JSON_parse (h : Host ApsModelDerivative.Operation) :
    node_run (ApsModelDerivative.try_block JSON_parse h)
             (continueOnFail h) (List.length (getInputData h))
             (ApsModelDerivative.execute JSON_parse h).

(** The translation-job request around one entry of the formats list. *)
Definition createJob_request (urn : string) (forceRegenerate : bool)
  (format : value) : value :=
  JObject
    ([("method", JString "POST");
      ("url",
       JString
         "https://developer.api.autodesk.com/modelderivative/v2/designdata/job");
      ("body",
       JObject [("input", JObject [("urn", JString urn)]);
                ("output", JObject [("formats", JArray [format])])]);
      ("json", JBool true);
      ("headers", JObject [("Content-Type", JString "application/json")])]
     ++ (if forceRegenerate
         then [("qs", JObject [("force", JBool true)])]
         else [])).

(** ** Sample hosts *)

Definition no_parse : string -> option value := fun _ => None.

Definition no_decode : string -> list byte := fun _ => [].

Definition required (name : string) : string :=
  "Parameter " +++ name +++ " is required".

Definition or_fallback {A} (name : string) (found fallback : option A)
  : result A :=
  match found, fallback with
  | Some v, _ => Ok v
  | None, Some d => Ok d
  | None, None => Raise (PlainError (required name))
  end.

(** A host with [n] input items, all for the operation [op], whose
    transport always answers [response]. *)
Definition sample_host {Op} (n : nat) (op : Op)
  (strings : string -> nat -> option string) (flags : string -> option bool)
  (response : value) (cont : bool) : Host Op :=
  mkHost Op
    (repeat (JObject [("json", JObject [])]) n)
    (fun _ => Ok op)
    (fun name i fallback => or_fallback name (strings name i) fallback)
    (fun name _ fallback => or_fallback name (flags name) fallback)
    (fun name _ fallback => or_fallback name None fallback)
    (fun name _ fallback => or_fallback name None fallback)
    (fun _ _ _ => Ok response)
    (fun data fileName mimeType =>
       Ok (JObject [("data", data); ("mimeType", JString mimeType);
                    ("fileName", JString fileName)]))
    cont.

(** Five items listing the projects of a hub; the hub id of item 2 is
    missing. *)
Definition projects_host (cont : bool) : Host ApsDataManagement.Operation :=
  sample_host 5 ApsDataManagement.getProjects
    (fun name i =>
       if (name =? "hubId") && negb (i =? 2)%nat then Some "b.1" else None)
    (fun _ => None)
    (JObject [("data", JArray [JObject [("id", JString "p")]])])
    cont.

Definition project_item (i : nat) : OutputItem :=
  mkItem (JObject [("id", JString "p"); ("type", JUndefined);
                   ("href", JUndefined)])
         (PairedObj i) None.


(** Five manifests; the urn of item 2 is missing. *)
Definition manifests_host (cont : bool) : Host ApsModelDerivative.Operation :=
  sample_host 5 ApsModelDerivative.getManifest
    (fun name i =>
       if (name =? "urn") && negb (i =? 2)%nat then Some "dXJu" else None)
    (fun _ => None)
    (JObject [("status", JString "success")])
    cont.

Definition items_host : Host ApsDataManagement.Operation :=
  sample_host 1 ApsDataManagement.getItems
    (fun name _ =>
       if name =? "projectId" then Some "b.1/2"
       else if name =? "folderId" then Some "urn:adsk.wipprod:fs.folder:co.x?y"
       else None)
    (fun _ => None) JNull false.

Definition tree_host : Host ApsModelDerivative.Operation :=
  sample_host 1 ApsModelDerivative.getMetadataTree
    (fun name _ =>
       if name =? "urn" then Some "a/b"
       else if name =? "guid" then Some "g#1"
       else None)
    (fun _ => None) JNull false.

(** One object download, answered with a two-byte buffer. *)
Definition download_host : Host ApsDataManagement.Operation :=
  sample_host 1 ApsDataManagement.downloadObject
    (fun name _ =>
       if name =? "bucketKey" then Some "b"
       else if name =? "objectName" then Some "o.bin"
       else None)
    (fun _ => None) (JBuffer [x01; x02]) false.

(** One thumbnail download, answered with the same buffer. *)
Definition thumbnail_host : Host ApsModelDerivative.Operation :=
  sample_host 1 ApsModelDerivative.getThumbnail
    (fun name _ => if name =? "urn" then Some "dXJu" else None)
    (fun _ => None) (JBuffer [x01; x02]) false.

Definition job_host (advanced : bool) : Host ApsModelDerivative.Operation :=
  sample_host 1 ApsModelDerivative.createJob
    (fun name _ =>
       if name =? "urn" then Some "dXJu"
       else if name =? "outputFormat" then Some "svf"
       else None)
    (fun name =>
       if name =? "advancedOutputSettings" then Some advanced else None)
    JNull false.

(** One of the parameter reads of item [i] throws [msg]. *)
Definition parameter_error {Op} (h : Host Op) (i : nat) (msg : Thrown)
  : Prop :=
  exists name,
    (exists fallback, getString h name i fallback = Raise msg) \/
    (exists fallback, getBoolean h name i fallback = Raise msg) \/
    (exists fallback, getNumber h name i fallback = Raise msg) \/
    (exists fallback, getStrings h name i fallback = Raise msg).

(** A string parameter of item [i] holds a lone surrogate. *)
Definition malformed_parameter {Op} (h : Host Op) (i : nat) : Prop :=
  exists name fallback v,
    getString h name i fallback = Ok v /\ has_lone_surrogate v = true.

(** A hub id with a lone surrogate (the bytes ED A0 80) after "b.". *)
Definition lone_surrogate_id : string :=
  String "b" (String "."
    (String (ascii_of_nat 237) (String (ascii_of_nat 160)
       (String (ascii_of_nat 128) "")))).

(** One listing of the projects of the hub with that id. *)
Definition surrogate_host : Host ApsDataManagement.Operation :=
  sample_host 1 ApsDataManagement.getProjects
    (fun name _ => if name =? "hubId" then Some lone_surrogate_id else None)
    (fun _ => None) JNull false.

(** One listing of the hubs, answered with text that is not JSON. *)
Definition text_host : Host ApsDataManagement.Operation :=
  sample_host 1 ApsDataManagement.getHubs (fun _ _ => None) (fun _ => None)
    (JString "Bad Gateway") false.

(** Three listings of the projects of a hub, split disabled. *)
Definition unsplit_host (cont : bool) : Host ApsDataManagement.Operation :=
  sample_host 3 ApsDataManagement.getProjects
    (fun name i =>
       if (name =? "hubId") && negb (i =? 1)%nat then Some "b.1" else None)
    (fun name => if name =? "splitItems" then Some false else None)
    (JObject [("data", JArray [JNull; JNull])])
    cont.

(** The HTTP method each operation is sent with. *)
Definition DM_method (op : ApsDataManagement.Operation) : string :=
  match op with
  | ApsDataManagement.createBucket => "POST"
  | ApsDataManagement.uploadObject | ApsDataManagement.copyObject => "PUT"
  | ApsDataManagement.deleteBucket | ApsDataManagement.deleteObject =>
      "DELETE"
  | _ => "GET"
  end.

Definition MD_method (op : ApsModelDerivative.Operation) : string :=
  match op with
  | ApsModelDerivative.createJob => "POST"
  | ApsModelDerivative.deleteManifest => "DELETE"
  | _ => "GET"
  end.

Definition DM_is (a b : ApsDataManagement.Operation) : bool :=
  match a, b with
  | ApsDataManagement.getHubs, ApsDataManagement.getHubs
  | ApsDataManagement.getProjects, ApsDataManagement.getProjects
  | ApsDataManagement.getTopFolders, ApsDataManagement.getTopFolders
  | ApsDataManagement.getItems, ApsDataManagement.getItems
  | ApsDataManagement.getItemVersions, ApsDataManagement.getItemVersions
  | ApsDataManagement.listBuckets, ApsDataManagement.listBuckets
  | ApsDataManagement.createBucket, ApsDataManagement.createBucket
  | ApsDataManagement.getBucketDetails, ApsDataManagement.getBucketDetails
  | ApsDataManagement.deleteBucket, ApsDataManagement.deleteBucket
  | ApsDataManagement.uploadObject, ApsDataManagement.uploadObject
  | ApsDataManagement.downloadObject, ApsDataManagement.downloadObject
  | ApsDataManagement.getObjectDetails, ApsDataManagement.getObjectDetails
  | ApsDataManagement.deleteObject, ApsDataManagement.deleteObject
  | ApsDataManagement.copyObject, ApsDataManagement.copyObject => true
  | _, _ => false
  end.

(** The value the host gives for a flag whose fallback is [false], and
    for a text parameter with a fallback. *)
Definition flag_value {Op} (h : Host Op) (i : nat) (name : string) : bool :=
  match getBoolean h name i (Some false) with
  | Ok b => b
  | Raise _ => false
  end.

Definition text_value {Op} (h : Host Op) (i : nat) (name fallback : string)
  : string :=
  match getString h name i (Some fallback) with
  | Ok v => v
  | Raise _ => ""
  end.

(** One listing of the buckets of the EMEA region. *)
Definition buckets_host : Host ApsDataManagement.Operation :=
  sample_host 1 ApsDataManagement.listBuckets
    (fun name _ => if name =? "region" then Some "EMEA" else None)
    (fun _ => None) JNull false.

(** One manifest, asked gzip-encoded. *)
Definition gzip_host : Host ApsModelDerivative.Operation :=
  sample_host 1 ApsModelDerivative.getManifest
    (fun name _ =>
       if name =? "urn" then Some "dXJu"
       else if name =? "acceptEncoding" then Some "gzip"
       else None)
    (fun _ => None) JNull false.

(** The number of bytes of the UTF-8 form of a string, which is how a
    string is represented here; it is not the [length] of the
    JavaScript string, which counts UTF-16 code units. *)
Definition utf8_bytes (s : string) : nat := String.length s.

(** The inverse of the percent-encoding, by which two parameter values
    with the same encoded form are shown to be the same. *)
Fixpoint index_of (c : ascii) (s : string) : nat :=
  match s with
  | EmptyString => 0
  | String d r => if Ascii.eqb c d then 0 else S (index_of c r)
  end.

Definition hex_value (c : ascii) : nat := index_of c "0123456789ABCDEF".

Fixpoint percent_decode (s : string) : string :=
  match s with
  | EmptyString => ""
  | String c r =>
      if Ascii.eqb c "%" then
        match r with
        | String a (String b r') =>
            String (ascii_of_nat (16 * hex_value a + hex_value b))
                   (percent_decode r')
        | _ => s
        end
      else String c (percent_decode r)
  end.

(** ** The descriptions of the nodes

    The parameters each node declares in [description.properties]:
    name, type, default, whether it is required, the values of an
    options parameter, and the [displayOptions.show] condition under
    which it is displayed.  Display names and descriptions are left
    out. *)

Inductive PropertyType :=
| POptions | PBoolean | PString | PNumber | PMultiOptions.

Module INodeProperties.
Record t := mk {
  name : string;
  type : PropertyType;
  default : value;
  required : bool;
  options : list value;
  show : list (string * list value)
}.
End INodeProperties.

Definition DM_operation_name (op : ApsDataManagement.Operation) : string :=
  match op with
  | ApsDataManagement.getHubs => "getHubs"
  | ApsDataManagement.getProjects => "getProjects"
  | ApsDataManagement.getTopFolders => "getTopFolders"
  | ApsDataManagement.getItems => "getItems"
  | ApsDataManagement.getItemVersions => "getItemVersions"
  | ApsDataManagement.listBuckets => "listBuckets"
  | ApsDataManagement.createBucket => "createBucket"
  | ApsDataManagement.getBucketDetails => "getBucketDetails"
  | ApsDataManagement.deleteBucket => "deleteBucket"
  | ApsDataManagement.uploadObject => "uploadObject"
  | ApsDataManagement.downloadObject => "downloadObject"
  | ApsDataManagement.getObjectDetails => "getObjectDetails"
  | ApsDataManagement.deleteObject => "deleteObject"
  | ApsDataManagement.copyObject => "copyObject"
  end.

Definition MD_operation_name (op : ApsModelDerivative.Operation) : string :=
  match op with
  | ApsModelDerivative.createJob => "createJob"
  | ApsModelDerivative.getManifest => "getManifest"
  | ApsModelDerivative.deleteManifest => "deleteManifest"
  | ApsModelDerivative.getMetadata => "getMetadata"
  | ApsModelDerivative.getMetadataTree => "getMetadataTree"
  | ApsModelDerivative.getThumbnail => "getThumbnail"
  end.

Definition for_operations (names : list string)
  : list (string * list value) :=
  [("operation", map JString names)].

Definition DM_properties : list INodeProperties.t :=
  [ INodeProperties.mk "operation" POptions (JString "getHubs") false
      (map JString
         ["copyObject"; "createBucket"; "deleteBucket"; "deleteObject";
          "downloadObject"; "getBucketDetails"; "getHubs";
          "getItemVersions"; "getItems"; "getObjectDetails"; "getProjects";
          "getTopFolders"; "listBuckets"; "uploadObject"])
      [];
    INodeProperties.mk "simplify" PBoolean (JBool true) false [] [];
    INodeProperties.mk "splitItems" PBoolean (JBool true) false [] [];
    INodeProperties.mk "splitItems" PBoolean (JBool true) false [] [];
    INodeProperties.mk "hubId" PString (JString "") true []
      (for_operations ["getProjects"]);
    INodeProperties.mk "projectId" PString (JString "") true []
      (for_operations ["getTopFolders"; "getItems"; "getItemVersions"]);
    INodeProperties.mk "folderId" PString (JString "") true []
      (for_operations ["getItems"]);
    INodeProperties.mk "itemId" PString (JString "") true []
      (for_operations ["getItemVersions"]);
    INodeProperties.mk "bucketKey" PString (JString "") true []
      (for_operations
         ["getBucketDetails"; "deleteBucket"; "uploadObject";
          "downloadObject"; "getObjectDetails"; "deleteObject";
          "copyObject"]);
    INodeProperties.mk "newBucketKey" PString (JString "") true []
      (for_operations ["createBucket"]);
    INodeProperties.mk "policyKey" POptions (JString "temporary") true
      (map JString ["transient"; "temporary"; "persistent"])
      (for_operations ["createBucket"]);
    INodeProperties.mk "objectName" PString (JString "") true []
      (for_operations
         ["uploadObject"; "downloadObject"; "getObjectDetails";
          "deleteObject"; "copyObject"]);
    INodeProperties.mk "newObjectName" PString (JString "") true []
      (for_operations ["copyObject"]);
    INodeProperties.mk "fileContent" PString (JString "") true []
      (for_operations ["uploadObject"]);
    INodeProperties.mk "contentType" PString
      (JString "application/octet-stream") false []
      (for_operations ["uploadObject"]);
    INodeProperties.mk "binaryData" PBoolean (JBool false) false []
      (for_operations ["uploadObject"]);
    INodeProperties.mk "region" POptions (JString "US") false
      (map JString ["US"; "EMEA"])
      (for_operations ["listBuckets"; "createBucket"]);
    INodeProperties.mk "limit" PNumber (JNumber 50) false []
      (for_operations ["listBuckets"]) ].

Definition MD_properties : list INodeProperties.t :=
  [ INodeProperties.mk "operation" POptions (JString "createJob") false
      (map JString
         ["createJob"; "deleteManifest"; "getManifest"; "getMetadata";
          "getMetadataTree"; "getThumbnail"])
      [];
    INodeProperties.mk "urn" PString (JString "") true []
      (for_operations
         ["getManifest"; "deleteManifest"; "getMetadata"; "getMetadataTree";
          "getThumbnail"; "createJob"]);
    INodeProperties.mk "outputFormat" POptions (JString "svf") true
      (map JString
         ["dwg"; "fbx"; "ifc"; "iges"; "obj"; "step"; "stl"; "svf"; "svf2";
          "thumbnail"])
      (for_operations ["createJob"]);
    INodeProperties.mk "advancedOutputSettings" PBoolean (JBool false) false
      [] (for_operations ["createJob"]);
    INodeProperties.mk "views" PMultiOptions
      (JArray [JString "2d"; JString "3d"]) false
      (map JString ["2d"; "3d"])
      [("operation", [JString "createJob"]);
       ("advancedOutputSettings", [JBool true])];
    INodeProperties.mk "forceRegenerate" PBoolean (JBool false) false []
      (for_operations ["createJob"]);
    INodeProperties.mk "acceptEncoding" POptions (JString "") false
      (map JString [""; "gzip"])
      (for_operations ["getManifest"]);
    INodeProperties.mk "guid" PString (JString "") true []
      (for_operations ["getMetadataTree"]);
    INodeProperties.mk "forceGetTree" PBoolean (JBool false) false []
      (for_operations ["getMetadataTree"]);
    INodeProperties.mk "width" PNumber (JNumber 400) false []
      (for_operations ["getThumbnail"]);
    INodeProperties.mk "height" PNumber (JNumber 400) false []
      (for_operations ["getThumbnail"]) ].

Definition same_value (a b : value) : bool :=
  match a, b with
  | JString x, JString y => x =? y
  | JBool x, JBool y => Bool.eqb x y
  | _, _ => false
  end.

(** A parameter is displayed when, for every key of its [show]
    condition, the current value of that key is one of the listed
    values. *)
Definition displayed (current : string -> value) (p : INodeProperties.t)
  : bool :=
  forallb (fun kv => existsb (same_value (current (fst kv))) (snd kv))
          (INodeProperties.show p).

Definition DM_current (op : ApsDataManagement.Operation) (k : string)
  : value :=
  if k =? "operation" then JString (DM_operation_name op) else JUndefined.

Definition MD_current (h : Host ApsModelDerivative.Operation) (i : nat)
  (op : ApsModelDerivative.Operation) (k : string) : value :=
  if k =? "operation" then JString (MD_operation_name op)
  else if k =? "advancedOutputSettings"
       then JBool (flag_value h i "advancedOutputSettings")
       else JUndefined.

Fixpoint find_property (n : string) (props : list INodeProperties.t)
  : option INodeProperties.t :=
  match props with
  | [] => None
  | p :: r => if n =? INodeProperties.name p then Some p
              else find_property n r
  end.

(** The host has a value for the parameter: a required parameter is
    read without a fallback, an optional one with a fallback, which
    the host may return. *)
Definition supplied {Op} (h : Host Op) (i : nat) (p : INodeProperties.t)
  : Prop :=
  let n := INodeProperties.name p in
  if n =? "operation" then exists op, getOperation h i = Ok op
  else
    match INodeProperties.type p, INodeProperties.required p with
    | (PString | POptions), true =>
        exists v, getString h n i None = Ok v
    | (PString | POptions), false =>
        forall d, exists v, getString h n i (Some d) = Ok v
    | PBoolean, true => exists v, getBoolean h n i None = Ok v
    | PBoolean, false => forall d, exists v, getBoolean h n i (Some d) = Ok v
    | PNumber, true => exists v, getNumber h n i None = Ok v
    | PNumber, false => forall d, exists v, getNumber h n i (Some d) = Ok v
    | PMultiOptions, true => exists v, getStrings h n i None = Ok v
    | PMultiOptions, false =>
        forall d, exists v, getStrings h n i (Some d) = Ok v
    end.

(** A host that has a value for every parameter. *)
Definition generous_host {Op} (op : Op) (response : value) : Host Op :=
  mkHost Op [JObject [("json", JObject [])]]
    (fun _ => Ok op)
    (fun _ _ _ => Ok "x")
    (fun _ _ _ => Ok true)
    (fun _ _ _ => Ok 1%Z)
    (fun _ _ _ => Ok ["3d"])
    (fun _ _ _ => Ok response)
    (fun data _ _ => Ok data)
    false.

(** * Proofs *)

(** ** Property lists *)

Lemma lookup_replace_same k v o :
  has_key k o = true -> lookup k (replace k v o) = Some v.
Proof.
  unfold has_key. induction o as [|[k' v'] r IH]; simpl; [discriminate|].
  destruct (k =? k') eqn:E; simpl.
  - now rewrite String.eqb_refl.
  - rewrite E. exact IH.
Qed.

Lemma lookup_replace_other k k' v o :
  k <> k' -> lookup k (replace k' v o) = lookup k o.
Proof.
  intros N. induction o as [|[k2 v2] r IH]; simpl; [reflexivity|].
  destruct (k' =? k2) eqn:E; simpl.
  - apply String.eqb_eq in E. subst k2.
    apply String.eqb_neq in N. now rewrite N.
  - now rewrite IH.
Qed.

Lemma lookup_insert_index_same n k v o :
  lookup k o = None -> lookup k (insert_index n k v o) = Some v.
Proof.
  induction o as [|[k' v'] r IH]; simpl.
  - now rewrite String.eqb_refl.
  - destruct (k =? k') eqn:E; [discriminate|]. intros H.
    destruct (array_index k') as [m|]; [destruct (n <? m)%N|]; simpl;
      rewrite ?String.eqb_refl, ?E; auto.
Qed.

Lemma lookup_insert_index_other n k k' v o :
  k <> k' -> lookup k (insert_index n k' v o) = lookup k o.
Proof.
  intros N. apply String.eqb_neq in N.
  induction o as [|[k2 v2] r IH]; simpl.
  - now rewrite N.
  - destruct (array_index k2) as [m|]; [destruct (n <? m)%N|]; simpl;
      rewrite ?N, ?IH; reflexivity.
Qed.

Lemma lookup_app k o1 o2 :
  lookup k (o1 ++ o2) =
  match lookup k o1 with Some v => Some v | None => lookup k o2 end.
Proof.
  induction o1 as [|[k' v'] r IH]; simpl; [reflexivity|].
  now destruct (k =? k').
Qed.

Lemma lookup_set_same k v o : lookup k (set k v o) = Some v.
Proof.
  unfold set. destruct (has_key k o) eqn:E.
  - now apply lookup_replace_same.
  - assert (L : lookup k o = None).
    { unfold has_key in E. now destruct (lookup k o). }
    destruct (array_index k).
    + now apply lookup_insert_index_same.
    + rewrite lookup_app, L. simpl. now rewrite String.eqb_refl.
Qed.

Lemma lookup_set_other k k' v o :
  k <> k' -> lookup k (set k' v o) = lookup k o.
Proof.
  intros N. unfold set. destruct (has_key k' o).
  - now apply lookup_replace_other.
  - destruct (array_index k').
    + now apply lookup_insert_index_other.
    + rewrite lookup_app. simpl. apply String.eqb_neq in N. rewrite N.
      now destruct (lookup k o).
Qed.

Lemma lookup_None_not_In k (o : object) :
  ~ In k (keys o) -> lookup k o = None.
Proof.
  induction o as [|[k' v'] r IH]; simpl; [reflexivity|].
  intros H. destruct (k =? k') eqn:E.
  - apply String.eqb_eq in E. subst. tauto.
  - apply IH. tauto.
Qed.

(** Defining properties with distinct keys: a key among them takes its
    new value, any other key keeps the value it had. *)
Lemma lookup_define_all k ps : forall o,
  NoDup (keys ps) ->
  lookup k (define_all ps o) =
  match lookup k ps with Some v => Some v | None => lookup k o end.
Proof.
  unfold define_all.
  induction ps as [|[k' v'] r IH]; simpl; intros o ND; [reflexivity|].
  inversion ND as [|? ? NI ND']; subst.
  rewrite IH by assumption.
  destruct (k =? k') eqn:E.
  - apply String.eqb_eq in E. subst k'.
    rewrite (lookup_None_not_In _ _ NI). apply lookup_set_same.
  - apply String.eqb_neq in E.
    rewrite (lookup_set_other _ _ _ _ E). reflexivity.
Qed.

Lemma define_all_nil o : define_all [] o = o.
Proof. reflexivity. Qed.

Example simplify_list_entity :
  simplifyEntity
    (JObject [("id", JString "a"); ("type", JString "items");
              ("attributes", JObject [("name", JString "x")]);
              ("links", JObject [("self", JObject [("href", JString "u")])])])
  = JObject [("id", JString "a"); ("type", JString "items");
             ("href", JString "u"); ("name", JString "x")].
Proof. reflexivity. Qed.

Example simplify_index_keys_first :
  simplifyEntity (JObject [("attributes", JArray [JNull; JBool true])])
  = JObject [("0", JNull); ("1", JBool true); ("id", JUndefined);
             ("type", JUndefined); ("href", JUndefined)].
Proof. reflexivity. Qed.

Example base64_Man : toString_base64 [x4d; x61; x6e] = "TWFu".
Proof. reflexivity. Qed.

Example base64_Ma : toString_base64 [x4d; x61] = "TWE=".
Proof. reflexivity. Qed.

Example encode_urn :
  encodeURIComponent "urn:adsk.wipprod:fs.folder:co/x y"
  = "urn%3Aadsk.wipprod%3Afs.folder%3Aco%2Fx%20y".
Proof. reflexivity. Qed.

Example href_falls_back_to_plain_link :
  entity_href
    (JObject [("links", JObject [("self", JObject [("href", JNull)]);
                                 ("href", JString "v")])])
  = JString "v"
  /\ entity_href (JObject [("links", JObject [("self", JNull)])])
     = JUndefined
  /\ entity_href (JString "links") = JUndefined.
Proof. repeat split. Qed.

Example string_attributes_ignored :
  simplifyEntity (JObject [("id", JNumber 7); ("attributes", JString "x")])
  = JObject [("id", JNumber 7); ("type", JUndefined); ("href", JUndefined)].
Proof. reflexivity. Qed.

Example list_body_not_split :
  normalized true false 0 list_body
  = [mkItem
       (JObject
          [("data",
            JArray [JObject [("id", JString "a"); ("type", JString "items");
                             ("href", JString "u"); ("name", JString "x")]])])
       (PairedObj 0) None].
Proof. reflexivity. Qed.

Example single_entity_body :
  normalized true true 3 (JObject [("data", list_entity)])
  = [mkItem flat_record (PairedObj 3) None]
  /\ normalized false true 3 (JObject [("data", list_entity)])
     = [mkItem list_entity (PairedObj 3) None].
Proof. split; reflexivity. Qed.

Example lone_surrogate_throws :
  encodeURIComponent_call lone_surrogate_id = Raise URIError
  /\ ApsDataManagement.build_request no_decode surrogate_host 0
       ApsDataManagement.getProjects = Raise URIError
  /\ encodeURIComponent_call
       (String (ascii_of_nat 195) (String (ascii_of_nat 169) ""))
     = Ok "%C3%A9".
Proof. repeat split. Qed.

(** ** Entity flattening *)

(** C1, as the spec states it, fails: the entity's own id is "a", its
    attributes hold an "id" of "b", and the flattened record's id is the
    attribute's "b". *)
Lemma attribute_id_replaces_entity_id :
  has_field (entity_attributes entity_with_id_attribute) "id" = true /\
  extracted entity_with_id_attribute "id" = JString "a" /\
  get (simplifyEntity entity_with_id_attribute) "id" = JString "b" /\
  get (simplifyEntity entity_with_id_attribute) "id"
  <> extracted entity_with_id_attribute "id".
Proof. repeat split; try reflexivity. discriminate. Qed.

(** C1 (amended): for every entity and each of the names id, type and
    href, the flattened record holds the attribute of that name when the
    attributes container has one, and the value extracted from the
    entity itself otherwise: on a collision the attribute wins. *)
Theorem simplifyEntity_attributes_override (entity : value) (k : string) :
  In k ["id"; "type"; "href"] ->
  NoDup (keys (own_props (entity_attributes entity))) ->
  get (simplifyEntity entity) k =
  match lookup k (own_props (entity_attributes entity)) with
  | Some v => v
  | None => extracted entity k
  end.
Proof.
  intros Hk ND. unfold simplifyEntity, get.
  rewrite lookup_define_all by assumption.
  destruct (lookup k (own_props (entity_attributes entity))); [reflexivity|].
  simpl in Hk. destruct Hk as [<-|[<-|[<-|[]]]]; reflexivity.
Qed.

Lemma simplifyEntity_attributes_override_witness :
  get (simplifyEntity entity_with_id_attribute) "id" = JString "b".
Proof.
  apply (simplifyEntity_attributes_override entity_with_id_attribute "id").
  - simpl. auto.
  - simpl. repeat constructor. simpl. tauto.
Defined.

(** C3, as the spec states it, fails: the flat record
    [{id:"a", type:"items", href:"u", name:"x"}] has neither attributes
    nor links, and flattening it drops its href and its name. *)
Lemma flat_record_not_unchanged :
  has_field flat_record "attributes" = false /\
  has_field flat_record "links" = false /\
  simplifyEntity flat_record
  = JObject [("id", JString "a"); ("type", JString "items");
             ("href", JUndefined)] /\
  simplifyEntity flat_record <> flat_record /\
  simplifyEntity (simplifyEntity list_entity) <> simplifyEntity list_entity.
Proof. repeat split; try reflexivity; discriminate. Qed.

(** C3 (amended): on a record with neither an attributes nor a links
    field, flattening returns the record of its id, its type and an
    undefined href, every other field dropped; flattening that result
    again returns it unchanged. *)
Theorem simplifyEntity_flat_record (o : object) :
  has_key "attributes" o = false ->
  has_key "links" o = false ->
  simplifyEntity (JObject o)
  = JObject [("id", get (JObject o) "id"); ("type", get (JObject o) "type");
             ("href", JUndefined)]
  /\ simplifyEntity (simplifyEntity (JObject o)) = simplifyEntity (JObject o).
Proof.
  intros HA HL.
  assert (A : lookup "attributes" o = None).
  { unfold has_key in HA. now destruct (lookup "attributes" o). }
  assert (L : lookup "links" o = None).
  { unfold has_key in HL. now destruct (lookup "links" o). }
  assert (E : simplifyEntity (JObject o)
              = JObject [("id", get (JObject o) "id");
                         ("type", get (JObject o) "type");
                         ("href", JUndefined)]).
  { unfold simplifyEntity, entity_attributes, entity_href. simpl.
    rewrite A, L. reflexivity. }
  split; [exact E|]. rewrite E. reflexivity.
Qed.

Lemma simplifyEntity_flat_record_witness :
  simplifyEntity flat_record
  = JObject [("id", JString "a"); ("type", JString "items");
             ("href", JUndefined)]
  /\ simplifyEntity (simplifyEntity flat_record) = simplifyEntity flat_record.
Proof.
  apply (simplifyEntity_flat_record
           [("id", JString "a"); ("type", JString "items");
            ("href", JString "u"); ("name", JString "x")]);
    reflexivity.
Defined.

(** ** Shape dispatch *)

Lemma has_field_false_get v k : has_field v k = false -> get v k = JUndefined.
Proof.
  destruct v; simpl; try reflexivity.
  unfold has_key. now destruct (lookup k props).
Qed.

Lemma opt_get_undefined v k : get v k = JUndefined -> opt_get v k = JUndefined.
Proof. now destruct v. Qed.

(** C6: the list body with the single entity
    [{id:"a", type:"items", attributes:{name:"x"}, links:{self:{href:"u"}}}],
    normalised for item 0 with simplify and split enabled, gives exactly
    one item, whose json is [{id:"a", type:"items", href:"u", name:"x"}]
    and whose paired item index is 0. *)
Theorem normalize_list_round_trip :
  normalized true true 0 list_body
  = [mkItem (JObject [("id", JString "a"); ("type", JString "items");
                      ("href", JString "u"); ("name", JString "x")])
            (PairedObj 0) None]
  /\ map pairedItemIndex (normalized true true 0 list_body) = [0].
Proof. split; reflexivity. Qed.

(** C8, as the spec states it, fails: with split and simplify both
    disabled, a body whose data is the empty array and which has a
    sibling field is emitted whole, not as [{data: []}]. *)
Lemma empty_data_body_emitted_whole :
  get empty_list_body "data" = JArray [] /\
  normalized false false 0 empty_list_body
  = [mkItem empty_list_body (PairedObj 0) None] /\
  map json (normalized false false 0 empty_list_body)
  <> [JObject [("data", JArray [])]].
Proof. repeat split; try reflexivity. discriminate. Qed.

(** C8 (amended): a body whose data field is the empty array gives no
    item when split is enabled; when split is disabled it gives exactly
    one item, whose json is [{data: []}] if simplify is enabled and the
    body itself, sibling fields included, if simplify is disabled. *)
Theorem normalize_empty_data (body : value) (i : nat) :
  get body "data" = JArray [] ->
  (forall simplify, normalized simplify true i body = []) /\
  normalized true false i body
  = [mkItem (JObject [("data", JArray [])]) (PairedObj i) None] /\
  normalized false false i body = [mkItem body (PairedObj i) None].
Proof.
  intros H.
  assert (O : opt_get body "data" = JArray []).
  { destruct body; simpl in *; try discriminate; exact H. }
  unfold normalized, normalize. rewrite O, H. simpl.
  repeat split; intros; reflexivity.
Qed.

Lemma normalize_empty_data_witness :
  (forall simplify, normalized simplify true 0 empty_list_body = []) /\
  normalized true false 0 empty_list_body
  = [mkItem (JObject [("data", JArray [])]) (PairedObj 0) None] /\
  normalized false false 0 empty_list_body
  = [mkItem empty_list_body (PairedObj 0) None].
Proof. apply (normalize_empty_data empty_list_body 0). reflexivity. Defined.

(** C9: a body with no data field gives exactly one item, whose json is
    the body itself, whatever the simplify and split settings are. *)
Theorem normalize_pass_through (body : value) (simplify splitItems : bool)
  (i : nat) :
  has_field body "data" = false ->
  normalized simplify splitItems i body = [mkItem body (PairedObj i) None].
Proof.
  intros H. apply has_field_false_get in H.
  pose proof (opt_get_undefined _ _ H) as O.
  unfold normalized, normalize. rewrite O, H. simpl.
  rewrite !andb_false_r. reflexivity.
Qed.

Lemma normalize_pass_through_witness :
  normalized true true 0 status_body = [mkItem status_body (PairedObj 0) None]
  /\ normalized false true 0 status_body
     = [mkItem status_body (PairedObj 0) None].
Proof.
  split.
  - apply (normalize_pass_through status_body true true 0). reflexivity.
  - apply (normalize_pass_through status_body false true 0). reflexivity.
Defined.

(** ** Percent-encoding of path parameters *)

Ltac each_ascii c := destruct c as [[|] [|] [|] [|] [|] [|] [|] [|]].

Lemma is_hex_hex_digit n : is_hex (hex_digit n) = true.
Proof. do 16 (destruct n as [|n]; [reflexivity|]). reflexivity. Qed.

Lemma unescaped_not_percent c :
  uriUnescaped c = true -> Ascii.eqb c "%" = false.
Proof. each_ascii c; vm_compute; congruence. Qed.

Lemma kept_char_not_reserved c :
  uriUnescaped c || Ascii.eqb c "%" || is_hex c = true ->
  uriReserved c = false.
Proof. each_ascii c; vm_compute; congruence. Qed.

Lemma reserved_slash c : uriReserved c = false -> Ascii.eqb c "/" = false.
Proof. each_ascii c; vm_compute; congruence. Qed.

Lemma encodeURIComponent_percent_encoded s :
  percent_encoded (encodeURIComponent s) = true.
Proof.
  induction s as [|c r IH]; [reflexivity|]. simpl.
  destruct (uriUnescaped c) eqn:U.
  - simpl. now rewrite (unescaped_not_percent _ U), U, IH.
  - unfold percent_encode. simpl. now rewrite !is_hex_hex_digit, IH.
Qed.

Lemma encodeURIComponent_chars s c :
  In c (chars (encodeURIComponent s)) ->
  uriUnescaped c || Ascii.eqb c "%" || is_hex c = true.
Proof.
  induction s as [|d r IH]; simpl; [tauto|].
  destruct (uriUnescaped d) eqn:U; simpl.
  - intros [<-|H]; [now rewrite U|auto].
  - intros [<-|[<-|[<-|H]]]; auto.
    + rewrite is_hex_hex_digit. apply orb_true_r.
    + rewrite is_hex_hex_digit. apply orb_true_r.
Qed.

Lemma encodeURIComponent_no_reserved s c :
  In c (chars (encodeURIComponent s)) -> uriReserved c = false.
Proof.
  intros H. apply kept_char_not_reserved, (encodeURIComponent_chars s), H.
Qed.

Lemma count_slash_app a b :
  count_slash (a +++ b) = count_slash a + count_slash b.
Proof. induction a as [|c r IH]; simpl; [reflexivity|]. rewrite IH. lia. Qed.

Lemma count_slash_no_slash s :
  (forall c, In c (chars s) -> Ascii.eqb c "/" = false) -> count_slash s = 0.
Proof.
  induction s as [|c r IH]; simpl; [reflexivity|]. intros H.
  rewrite (H c) by auto. simpl. apply IH. auto.
Qed.

Lemma count_slash_encodeURIComponent s :
  count_slash (encodeURIComponent s) = 0.
Proof.
  apply count_slash_no_slash. intros c H.
  apply reserved_slash, (encodeURIComponent_no_reserved s), H.
Qed.

Lemma count_slash_fill (arg : string -> string) t :
  (forall p, count_slash (arg p) = 0) ->
  count_slash (fill arg t) = count_slash (fill (fun _ => "") t).
Proof.
  intros H. induction t as [|[s|p] r IH]; simpl; [reflexivity| |].
  - rewrite !count_slash_app, IH. reflexivity.
  - rewrite count_slash_app, H, IH. reflexivity.
Qed.

Lemma append_empty_r s : s +++ "" = s.
Proof. induction s; simpl; congruence. Qed.

(** The value of a key of an object literal is the one written last. *)
Lemma lookup_define_all_last k ps : forall o,
  lookup k (define_all ps o) =
  match lookup k (rev ps) with Some v => Some v | None => lookup k o end.
Proof.
  unfold define_all.
  induction ps as [|[k' v'] r IH]; simpl; intros o; [reflexivity|].
  rewrite IH, lookup_app. destruct (lookup k (rev r)); [reflexivity|].
  simpl. destruct (k =? k') eqn:E.
  - apply String.eqb_eq in E. subst. apply lookup_set_same.
  - apply String.eqb_neq in E. now apply lookup_set_other.
Qed.

Lemma get_literal k ps :
  get (literal ps) k =
  match lookup k (rev ps) with Some v => v | None => JUndefined end.
Proof.
  unfold literal, get. rewrite lookup_define_all_last.
  now destruct (lookup k (rev ps)).
Qed.

Lemma get_assign_other o k k' v : k <> k' -> get (assign o k' v) k = get o k.
Proof.
  intros N. destruct o; simpl; try reflexivity.
  now rewrite lookup_set_other.
Qed.

Lemma encodeURIComponent_call_Ok s s' :
  encodeURIComponent_call s = Ok s' -> s' = encodeURIComponent s.
Proof.
  unfold encodeURIComponent_call.
  destruct (has_lone_surrogate s); [discriminate|]. now intros [= <-].
Qed.

Ltac read_params :=
  repeat match goal with
  | |- context [rbind ?r _] =>
      match r with
      | getString _ _ _ _ => destruct r eqn:?
      | getBoolean _ _ _ _ => destruct r eqn:?
      | getNumber _ _ _ _ => destruct r eqn:?
      | getStrings _ _ _ _ => destruct r eqn:?
      | encodeURIComponent_call _ =>
          let E := fresh "E" in
          destruct r eqn:E;
          [apply encodeURIComponent_call_Ok in E; subst|]
      | (if ?b then _ else _) => destruct b
      end; cbn [rbind]
  end.

Ltac use_params :=
  unfold param_value;
  repeat match goal with
         | E : getString _ _ _ None = Ok _ |- _ => rewrite E; clear E
         end.

Ltac params_read :=
  let p := fresh "p" in
  let Hp := fresh "Hp" in
  intros p Hp; cbn [params In] in Hp;
  repeat (destruct Hp as [<-|Hp]; [now use_params|]); now destruct Hp.

Lemma DM_url dec (h : Host ApsDataManagement.Operation) i op req :
  ApsDataManagement.build_request dec h i op = Ok req ->
  get req "url"
  = JString (BASE_URL
             +++ fill (fun p => encodeURIComponent (param_value h i p))
                   (DM_template op))
  /\ forall p, In p (params (DM_template op)) ->
               getString h p i None = Ok (param_value h i p).
Proof.
  unfold ApsDataManagement.build_request, ApsDataManagement.switch_url.
  destruct op; cbn [rbind]; read_params; try discriminate; intros [= <-].
  all: cbn [DM_template]; split; [|params_read].
  all: cbn [fill]; use_params; rewrite get_literal, ?append_empty_r.
  all: reflexivity.
Qed.

Lemma MD_url (h : Host ApsModelDerivative.Operation) i op urn req :
  getString h "urn" i None = Ok urn ->
  ApsModelDerivative.build_request h i op urn = Ok req ->
  get req "url"
  = JString (BASE_URL
             +++ fill (fun p => encodeURIComponent (param_value h i p))
                   (MD_template op))
  /\ forall p, In p (params (MD_template op)) ->
               getString h p i None = Ok (param_value h i p).
Proof.
  intros U. unfold ApsModelDerivative.build_request.
  destruct op; cbn [rbind]; read_params; try discriminate; intros [= <-].
  all: cbn [MD_template]; split; [|params_read].
  all: cbn [fill]; use_params;
    repeat match goal with
           | |- context [if ?b then _ else _] => destruct b
           end;
    rewrite ?get_assign_other by discriminate;
    rewrite ?append_empty_r;
    first [ rewrite get_literal; reflexivity | vm_compute; reflexivity ].
Qed.

(** ** What a computation appends *)

(** [m] only appends to the output, what it appends and its result do
    not depend on the output so far, every appended item satisfies [P],
    and nothing is appended when it throws. *)
Definition appends {A} (P : OutputItem -> Prop) (m : M A) : Prop :=
  exists out r,
    (forall rd, m rd = (rd ++ out, r)) /\ Forall P out /\
    (forall msg, r = Raise msg -> out = []).

(** [m] appends items satisfying [P] and never throws. *)
Definition pushes (P : OutputItem -> Prop) (m : M unit) : Prop :=
  exists out, (forall rd, m rd = (rd ++ out, Ok tt)) /\ Forall P out.

Lemma pushes_appends P m : pushes P m -> appends P m.
Proof.
  intros (out & H & F). exists out, (Ok tt). repeat split; auto.
  discriminate.
Qed.

Lemma pushes_ret P : pushes P (ret tt).
Proof.
  exists []. split; [|constructor].
  intros rd. unfold ret. now rewrite app_nil_r.
Qed.

Lemma pushes_push P x : P x -> pushes P (push x).
Proof. intros H. exists [x]. split; [reflexivity|auto]. Qed.

Lemma pushes_seq P m k : pushes P m -> pushes P k -> pushes P (m ;;; k).
Proof.
  intros (o1 & H1 & F1) (o2 & H2 & F2). exists (o1 ++ o2). split.
  - intros rd. unfold bind. rewrite H1, H2, app_assoc. reflexivity.
  - apply Forall_app. auto.
Qed.

Lemma pushes_for_of {A} P (l : list A) f :
  (forall x, pushes P (f x)) -> pushes P (for_of l f).
Proof.
  intros H. induction l; simpl; [apply pushes_ret|].
  apply pushes_seq; auto.
Qed.

Lemma appends_lift_bind {A B} P (r : result A) (f : A -> M B) :
  (forall a, appends P (f a)) -> appends P (bind (lift r) f).
Proof.
  intros H. destruct r as [a|msg].
  - destruct (H a) as (out & r & E & F & Q). exists out, r.
    repeat split; auto.
  - exists [], (Raise msg). repeat split; auto.
    intros rd. unfold bind, lift. now rewrite app_nil_r.
Qed.

Lemma normalize_pushes simplify splitItems i body :
  pushes (fun x => pairedItem x = PairedObj i)
         (normalize simplify splitItems i body).
Proof.
  unfold normalize.
  repeat match goal with
         | |- pushes _ (if ?b then _ else _) => destruct b
         end;
    try (apply pushes_push; reflexivity).
  apply pushes_for_of. intros x. apply pushes_push. reflexivity.
Qed.

Lemma DM_try_block_appends JSON_parse dec h i :
  appends (fun x => pairedItem x = PairedObj i)
          (ApsDataManagement.try_block JSON_parse dec h i).
Proof.
  unfold ApsDataManagement.try_block.
  repeat (apply appends_lift_bind; intros ?).
  apply pushes_appends, normalize_pushes.
Qed.

Lemma MD_try_block_appends JSON_parse h i :
  appends (fun x => pairedItem x = PairedObj i)
          (ApsModelDerivative.try_block JSON_parse h i).
Proof.
  unfold ApsModelDerivative.try_block.
  repeat (apply appends_lift_bind; intros ?).
  match goal with |- appends _ (if ?b then _ else _) => destruct b end.
  - apply appends_lift_bind. intros data.
    apply pushes_appends, pushes_push. reflexivity.
  - apply pushes_appends, pushes_push. reflexivity.
Qed.

(** ** The loop *)

Section LoopProofs.
Variable tb : nat -> M unit.
Variable cont : bool.
Hypothesis tb_appends :
  forall i, appends (fun x => pairedItem x = PairedObj i) (tb i).

Lemma try_block_frame i rd :
  tb i rd = (rd ++ fst (tb i []), snd (tb i [])).
Proof.
  destruct (tb_appends i) as (out & r & E & _). now rewrite !E.
Qed.

Lemma try_block_raise_silent i msg :
  snd (tb i []) = Raise msg -> fst (tb i []) = [].
Proof.
  destruct (tb_appends i) as (out & r & E & _ & Q). rewrite E. simpl.
  apply Q.
Qed.

Lemma try_block_paired i :
  Forall (fun x => pairedItemIndex x = i) (fst (tb i [])).
Proof.
  destruct (tb_appends i) as (out & r & E & F & _). rewrite E. simpl.
  eapply Forall_impl; [|exact F]. intros x H. unfold pairedItemIndex.
  now rewrite H.
Qed.

Lemma iteration_ok i rd :
  snd (tb i []) = Ok tt ->
  iteration tb cont i rd = (rd ++ fst (tb i []), None).
Proof.
  intros H. unfold iteration. rewrite try_block_frame, H. reflexivity.
Qed.

Lemma iteration_raise i msg rd :
  snd (tb i []) = Raise msg ->
  iteration tb cont i rd =
  if cont then (rd ++ [error_item (message_of msg) i], None)
  else (rd, Some (new_NodeOperationError msg i)).
Proof.
  intros H. unfold iteration.
  rewrite try_block_frame, H, (try_block_raise_silent _ _ H), app_nil_r.
  reflexivity.
Qed.

Lemma iteration_frame i rd :
  iteration tb cont i rd
  = (rd ++ emitted tb cont i, snd (iteration tb cont i [])).
Proof.
  unfold emitted. destruct (snd (tb i [])) as [[]|msg] eqn:E.
  - now rewrite !(iteration_ok _ _ E).
  - rewrite !(iteration_raise _ _ _ E). destruct cont; simpl;
      now rewrite ?app_nil_r.
Qed.

Lemma emitted_paired i :
  Forall (fun x => pairedItemIndex x = i) (emitted tb cont i).
Proof.
  unfold emitted. destruct (snd (tb i [])) as [[]|msg] eqn:E.
  - rewrite (iteration_ok _ _ E). apply try_block_paired.
  - rewrite (iteration_raise _ _ _ E). destruct cont; simpl; auto.
Qed.

Lemma loop_step n i rd :
  loop tb cont (S n) i rd =
  match snd (iteration tb cont i []) with
  | None => loop tb cont n (S i) (rd ++ emitted tb cont i)
  | Some e => (rd ++ emitted tb cont i, Some e)
  end.
Proof.
  simpl. rewrite iteration_frame.
  now destruct (snd (iteration tb cont i [])).
Qed.



Lemma loop_prefix n : forall i rd,
  exists k, k <= n /\
    fst (loop tb cont n i rd)
    = rd ++ List.concat (map (emitted tb cont) (seq i k)).
Proof.
  induction n as [|n IH]; intros i rd.
  - exists 0. split; [lia|]. simpl. now rewrite app_nil_r.
  - rewrite loop_step. destruct (snd (iteration tb cont i [])).
    + exists 1. split; [lia|]. cbn [fst seq map List.concat].
      now rewrite app_nil_r.
    + destruct (IH (S i) (rd ++ emitted tb cont i)) as (k & L & E).
      exists (S k). split; [lia|]. rewrite E. cbn [seq map List.concat].
      now rewrite app_assoc.
Qed.
End LoopProofs.

Lemma node_run_appends tb cont n final :
  node_run tb cont n final ->
  (forall i, appends (fun x => pairedItem x = PairedObj i) (tb i))
  /\ final = loop tb cont n 0 [].
Proof.
  intros []; split; try reflexivity; intros i.
  - apply DM_try_block_appends.
  - apply MD_try_block_appends.
Qed.

(** ** Request URLs *)

(** C7: for every operation of either node, the URL of the request is
    the base URL followed by the operation's path pattern in which each
    parameter is replaced by its own [encodeURIComponent] form.  Such a
    form is made of unreserved characters and [%XX] triplets only, so
    that no reserved character ([; / ? : @ & = + $ , # [ ]]) of a
    parameter reaches the URL, and the URL has exactly the [/]
    separators of the pattern. *)
Theorem path_parameters_percent_encoded :
  (forall dec (h : Host ApsDataManagement.Operation) i op req,
      ApsDataManagement.build_request dec h i op = Ok req ->
      let arg := fun p => encodeURIComponent (param_value h i p) in
      get req "url" = JString (BASE_URL +++ fill arg (DM_template op)) /\
      (forall p, In p (params (DM_template op)) ->
                 getString h p i None = Ok (param_value h i p)) /\
      count_slash (BASE_URL +++ fill arg (DM_template op))
      = count_slash (BASE_URL +++ fill (fun _ => "") (DM_template op)))
  /\
  (forall (h : Host ApsModelDerivative.Operation) i op urn req,
      getString h "urn" i None = Ok urn ->
      ApsModelDerivative.build_request h i op urn = Ok req ->
      let arg := fun p => encodeURIComponent (param_value h i p) in
      get req "url" = JString (BASE_URL +++ fill arg (MD_template op)) /\
      (forall p, In p (params (MD_template op)) ->
                 getString h p i None = Ok (param_value h i p)) /\
      count_slash (BASE_URL +++ fill arg (MD_template op))
      = count_slash (BASE_URL +++ fill (fun _ => "") (MD_template op)))
  /\
  (forall s,
      percent_encoded (encodeURIComponent s) = true /\
      forall c, In c (chars (encodeURIComponent s)) -> uriReserved c = false).
Proof.
  repeat split.
  - now apply (DM_url dec).
  - now apply (DM_url dec h i op req).
  - rewrite !count_slash_app. f_equal. apply count_slash_fill.
    intros p. apply count_slash_encodeURIComponent.
  - now apply (MD_url h i op urn req).
  - now apply (MD_url h i op urn req).
  - rewrite !count_slash_app. f_equal. apply count_slash_fill.
    intros p. apply count_slash_encodeURIComponent.
  - apply encodeURIComponent_percent_encoded.
  - apply encodeURIComponent_no_reserved.
Qed.

Lemma path_parameters_percent_encoded_witness :
  (ApsDataManagement.build_request no_decode items_host 0
     ApsDataManagement.getItems
   = Ok (JObject
           [("method", JString "GET");
            ("url",
             JString
               "https://developer.api.autodesk.com/data/v1/projects/b.1%2F2/folders/urn%3Aadsk.wipprod%3Afs.folder%3Aco.x%3Fy/contents");
            ("json", JBool true);
            ("headers",
             JObject
               [("Accept",
                 JString "application/vnd.api+json, application/json;q=0.9")])])
   /\ forall req,
      ApsDataManagement.build_request no_decode items_host 0
        ApsDataManagement.getItems = Ok req ->
      get req "url"
      = JString
          "https://developer.api.autodesk.com/data/v1/projects/b.1%2F2/folders/urn%3Aadsk.wipprod%3Afs.folder%3Aco.x%3Fy/contents")
  /\
  (forall req,
      ApsModelDerivative.build_request tree_host 0
        ApsModelDerivative.getMetadataTree "a/b" = Ok req ->
      get req "url"
      = JString
          "https://developer.api.autodesk.com/modelderivative/v2/designdata/a%2Fb/metadata/g%231").
Proof.
  destruct path_parameters_percent_encoded as (DM & MD & _).
  split; [split; [reflexivity|]|].
  - intros req H.
    exact (proj1 (DM no_decode items_host 0 ApsDataManagement.getItems req H)).
  - intros req H.
    exact (proj1 (MD tree_host 0 ApsModelDerivative.getMetadataTree "a/b" req
                    eq_refl H)).
Defined.

(** ** Binary responses *)

Lemma bind_lift_ok {A B} (r : result A) (a : A) (f : A -> M B) rd :
  r = Ok a -> bind (lift r) f rd = f a rd.
Proof. intros ->. reflexivity. Qed.

(** X10: The thumbnail download: a buffer returned by the transport gives
    exactly one item, whose json holds the base64 text of the bytes
    and the content type, and whose binary attachment is what the host
    prepared from the buffer under the name [data]. *)
Lemma thumbnail_buffer_item JSON_parse (h : Host ApsModelDerivative.Operation)
  i urn req bs data rd :
  getOperation h i = Ok ApsModelDerivative.getThumbnail ->
  getString h "urn" i None = Ok urn ->
  ApsModelDerivative.build_request h i ApsModelDerivative.getThumbnail urn
  = Ok req ->
  requestWithAuthentication h i credentials req = Ok (JBuffer bs) ->
  prepareBinaryData h (JBuffer bs) "thumbnail.png" "image/png" = Ok data ->
  ApsModelDerivative.try_block JSON_parse h i rd
  = (rd ++ [mkItem (JObject [("thumbnail", JString (toString_base64 bs));
                             ("contentType", JString "image/png")])
                   (PairedObj i) (Some (JObject [("data", data)]))],
     Ok tt).
Proof.
  intros O U R T P. unfold ApsModelDerivative.try_block.
  rewrite (bind_lift_ok _ _ _ _ O), (bind_lift_ok _ _ _ _ U),
    (bind_lift_ok _ _ _ _ R), (bind_lift_ok _ _ _ _ T).
  simpl. rewrite (bind_lift_ok _ _ _ _ P). reflexivity.
Qed.

(** The Data Management node, whatever the operation: a buffer returned
    by the transport has no [data] field and is pushed as the json of
    the only item, with no binary attachment. *)
Lemma DM_buffer_item JSON_parse dec (h : Host ApsDataManagement.Operation)
  i op req bs simplify splitItems rd :
  getOperation h i = Ok op ->
  ApsDataManagement.build_request dec h i op = Ok req ->
  requestWithAuthentication h i credentials req = Ok (JBuffer bs) ->
  getBoolean h "simplify" i (Some true) = Ok simplify ->
  getBoolean h "splitItems" i (Some true) = Ok splitItems ->
  ApsDataManagement.try_block JSON_parse dec h i rd
  = (rd ++ [mkItem (JBuffer bs) (PairedObj i) None], Ok tt).
Proof.
  intros O R T S1 S2. unfold ApsDataManagement.try_block.
  rewrite (bind_lift_ok _ _ _ _ O), (bind_lift_ok _ _ _ _ R),
    (bind_lift_ok _ _ _ _ T).
  simpl. rewrite (bind_lift_ok _ _ _ _ S1), (bind_lift_ok _ _ _ _ S2).
  reflexivity.
Qed.

(** C2 fails for the object download: the Data Management node has no
    binary path, and the buffer the transport returns for
    [downloadObject] is pushed as the json of the item, with no base64
    text, no content type and no binary attachment; the thumbnail
    download of the Model Derivative node, given the same buffer,
    builds all three. *)
Theorem downloadObject_buffer_passed_through :
  ApsDataManagement.execute no_parse no_decode download_host
  = ([mkItem (JBuffer [x01; x02]) (PairedObj 0) None], None)
  /\ ApsModelDerivative.execute no_parse thumbnail_host
     = ([mkItem (JObject [("thumbnail", JString "AQI=");
                          ("contentType", JString "image/png")])
                (PairedObj 0)
                (Some (JObject
                         [("data",
                           JObject [("data", JBuffer [x01; x02]);
                                    ("mimeType", JString "image/png");
                                    ("fileName", JString "thumbnail.png")])]))],
        None).
Proof. split; reflexivity. Qed.

(** ** The translation job *)

(** C10: with the other parameters fixed, the request of [createJob]
    built with the advanced-output-settings toggle disabled is the
    request whose format entry is [{type}] alone, whatever the views
    parameter holds; with the toggle enabled it is the same request
    with [views] added to that entry and nothing else changed. *)
Theorem createJob_views_gated (h : Host ApsModelDerivative.Operation)
  (i : nat) (urn outputFormat : string) (forceRegenerate : bool) :
  getString h "outputFormat" i None = Ok outputFormat ->
  getBoolean h "forceRegenerate" i (Some false) = Ok forceRegenerate ->
  (getBoolean h "advancedOutputSettings" i (Some false) = Ok false ->
   ApsModelDerivative.build_request h i ApsModelDerivative.createJob urn
   = Ok (createJob_request urn forceRegenerate
           (JObject [("type", JString outputFormat)])))
  /\
  (forall views,
      getBoolean h "advancedOutputSettings" i (Some false) = Ok true ->
      getStrings h "views" i (Some ["2d"; "3d"]) = Ok views ->
      ApsModelDerivative.build_request h i ApsModelDerivative.createJob urn
      = Ok (createJob_request urn forceRegenerate
              (JObject [("type", JString outputFormat);
                        ("views", JArray (map JString views))]))).
Proof.
  intros F R. unfold ApsModelDerivative.build_request. rewrite F, R.
  split.
  - intros ->. destruct forceRegenerate; reflexivity.
  - intros views -> ->. destruct forceRegenerate; reflexivity.
Qed.

Lemma createJob_views_gated_witness :
  ApsModelDerivative.build_request (job_host false) 0
    ApsModelDerivative.createJob "dXJu"
  = Ok (createJob_request "dXJu" false (JObject [("type", JString "svf")]))
  /\
  ApsModelDerivative.build_request (job_host true) 0
    ApsModelDerivative.createJob "dXJu"
  = Ok (createJob_request "dXJu" false
          (JObject [("type", JString "svf");
                    ("views", JArray [JString "2d"; JString "3d"])])).
Proof.
  split.
  - apply (proj1 (createJob_views_gated (job_host false) 0 "dXJu" "svf" false
                    eq_refl eq_refl)).
    reflexivity.
  - apply (proj2 (createJob_views_gated (job_host true) 0 "dXJu" "svf" false
                    eq_refl eq_refl) ["2d"; "3d"]); reflexivity.
Defined.

(** ** Errors and traceability *)





(** C5: in every run of either node, every item appended to the output
    while item [i] is processed, by the [try] block or by its [catch],
    has paired item index [i]; the output of the run is made of the
    items appended for item 0, item 1, ... in that order. *)
Theorem paired_index_traceability tb cont n final :
  node_run tb cont n final ->
  (forall i rd, exists out,
      fst (iteration tb cont i rd) = rd ++ out /\
      Forall (fun x => pairedItemIndex x = i) out)
  /\
  (exists k, k <= n /\
      fst final = List.concat (map (emitted tb cont) (seq 0 k)) /\
      forall i, Forall (fun x => pairedItemIndex x = i) (emitted tb cont i))
  /\
  Forall (fun x => pairedItemIndex x < n) (fst final).
Proof.
  intros R. destruct (node_run_appends _ _ _ _ R) as [A ->].
  destruct (loop_prefix tb cont A n 0 []) as (k & L & E).
  split; [|split].
  - intros i rd. exists (emitted tb cont i).
    rewrite (iteration_frame tb cont A). split; [reflexivity|].
    apply (emitted_paired tb cont A).
  - exists k. split; [exact L|]. split; [exact E|].
    apply (emitted_paired tb cont A).
  - rewrite E. apply Forall_forall. intros x Hx.
    apply in_concat in Hx. destruct Hx as (chunk & Hc & Hx).
    apply in_map_iff in Hc. destruct Hc as (i & <- & Hi).
    apply in_seq in Hi.
    pose proof (emitted_paired tb cont A i) as F.
    rewrite Forall_forall in F. rewrite (F x Hx). lia.
Qed.

Lemma paired_index_traceability_witness :
  exists out,
    fst (iteration
           (ApsDataManagement.try_block no_parse no_decode (projects_host true))
           true 2 [project_item 0; project_item 1])
    = [project_item 0; project_item 1] ++ out
    /\ Forall (fun x => pairedItemIndex x = 2) out.
Proof.
  exact (proj1 (paired_index_traceability _ _ _ _
                  (run_DataManagement no_parse no_decode (projects_host true)))
               2 [project_item 0; project_item 1]).
Defined.

(** * Further properties *)

(** ** The flattened record *)

Lemma opt_get_get v k : opt_get v k = get v k.
Proof. now destruct v. Qed.

Lemma lookup_rev_None k (o : object) :
  lookup k (rev o) = None <-> lookup k o = None.
Proof.
  induction o as [|[k' v'] r IH]; simpl; [tauto|].
  rewrite lookup_app. simpl.
  destruct (k =? k'); destruct (lookup k (rev r)); split; intros H;
    try discriminate; tauto.
Qed.

Lemma has_key_define_all k ps o :
  has_key k (define_all ps o) = has_key k ps || has_key k o.
Proof.
  unfold has_key. rewrite lookup_define_all_last.
  destruct (lookup k (rev ps)) eqn:R.
  - destruct (lookup k ps) eqn:P; [reflexivity|].
    pose proof (proj2 (lookup_rev_None k ps) P). congruence.
  - rewrite (proj1 (lookup_rev_None k ps) R). reflexivity.
Qed.

Lemma entity_href_not_null entity : entity_href entity <> JNull.
Proof.
  unfold entity_href, coalesce.
  destruct (opt_get (opt_get (opt_get entity "links") "self") "href");
    try discriminate;
    destruct (opt_get (opt_get entity "links") "href"); discriminate.
Qed.

(** X1: Whatever the value it is given (null, a string, an array, an object
    without attributes), [simplifyEntity] returns an object that has
    the three keys id, type and href; its keys are these three and the
    keys of the attributes container, nothing else of the entity; and
    its href is never null. *)
Theorem simplifyEntity_shape (entity : value) :
  (exists o, simplifyEntity entity = JObject o) /\
  (forall k,
      has_field (simplifyEntity entity) k
      = has_key k (own_props (entity_attributes entity))
        || (k =? "id") || (k =? "type") || (k =? "href")) /\
  (has_key "href" (own_props (entity_attributes entity)) = false ->
   get (simplifyEntity entity) "href" <> JNull).
Proof.
  split; [eexists; reflexivity|]. split.
  - intros k. unfold simplifyEntity, has_field.
    rewrite has_key_define_all. unfold has_key at 2. simpl.
    destruct (k =? "id"), (k =? "type"), (k =? "href");
      rewrite ?orb_true_r, ?orb_false_r; reflexivity.
  - intros H. unfold simplifyEntity, get.
    rewrite lookup_define_all_last.
    unfold has_key in H.
    destruct (lookup "href" (own_props (entity_attributes entity))) eqn:L;
      [discriminate|].
    rewrite (proj2 (lookup_rev_None _ _) L). simpl.
    apply entity_href_not_null.
Qed.

Lemma simplifyEntity_shape_witness :
  get (simplifyEntity
         (JObject [("links", JObject [("self", JObject [("href", JNull)])])]))
      "href"
  <> JNull.
Proof.
  apply (proj2 (proj2 (simplifyEntity_shape
    (JObject [("links", JObject [("self", JObject [("href", JNull)])])])))).
  reflexivity.
Defined.

(** X2: Every field of the attributes container reaches the flattened
    record with its value, and a key that is neither an attribute nor
    id, type or href is undefined in it: the entity's other fields
    (links, relationships, meta) are never copied. *)
Theorem simplifyEntity_fields (entity : value) (k : string) :
  NoDup (keys (own_props (entity_attributes entity))) ->
  get (simplifyEntity entity) k =
  match lookup k (own_props (entity_attributes entity)) with
  | Some v => v
  | None => extracted entity k
  end.
Proof.
  intros ND. unfold simplifyEntity, get.
  rewrite lookup_define_all by assumption.
  destruct (lookup k (own_props (entity_attributes entity))); [reflexivity|].
  unfold extracted. simpl.
  destruct (k =? "id"); [reflexivity|].
  destruct (k =? "type"); [reflexivity|].
  destruct (k =? "href"); reflexivity.
Qed.

Lemma simplifyEntity_fields_witness :
  get (simplifyEntity list_entity) "name" = JString "x"
  /\ get (simplifyEntity list_entity) "links" = JUndefined.
Proof.
  assert (ND : NoDup (keys (own_props (entity_attributes list_entity)))).
  { simpl. repeat constructor. simpl. tauto. }
  split.
  - exact (simplifyEntity_fields list_entity "name" ND).
  - exact (simplifyEntity_fields list_entity "links" ND).
Defined.

(** X3: An entity that is not an object (null, undefined, a string, a
    number, an array) is flattened to the record whose id, type and
    href are all undefined. *)
Theorem simplifyEntity_non_object (entity : value) :
  (forall o, entity <> JObject o) ->
  simplifyEntity entity
  = JObject [("id", JUndefined); ("type", JUndefined); ("href", JUndefined)].
Proof.
  intros H. destruct entity; try reflexivity. now destruct (H props).
Qed.

Lemma simplifyEntity_non_object_witness :
  simplifyEntity JNull
  = JObject [("id", JUndefined); ("type", JUndefined); ("href", JUndefined)].
Proof. apply simplifyEntity_non_object. discriminate. Defined.

(** ** The dispatch on the shape of the body *)

Lemma for_of_push {A} (f : A -> OutputItem) (l : list A) rd :
  for_of l (fun x => push (f x)) rd = (rd ++ map f l, Ok tt).
Proof.
  revert rd. induction l as [|x r IH]; intros rd; simpl.
  - unfold ret. now rewrite app_nil_r.
  - unfold bind, push at 1. rewrite IH. now rewrite <- app_assoc.
Qed.

(** X4: A body whose data is an array, with split enabled, gives one item
    per element, in the order of the array, each paired with the input
    item: the element flattened if simplify is enabled, the element
    itself otherwise.  The other fields of the body are dropped. *)
Theorem normalize_fan_out (body : value) (l : list value)
  (simplify : bool) (i : nat) :
  get body "data" = JArray l ->
  normalized simplify true i body
  = map (fun element =>
           mkItem (if simplify then simplifyEntity element else element)
                  (PairedObj i) None) l.
Proof.
  intros H. unfold normalized, normalize.
  rewrite opt_get_get, H. simpl. rewrite for_of_push. reflexivity.
Qed.

Lemma normalize_fan_out_witness :
  normalized false true 4
    (JObject [("data", JArray [JNumber 1; JNull; JString "z"])])
  = [mkItem (JNumber 1) (PairedObj 4) None; mkItem JNull (PairedObj 4) None;
     mkItem (JString "z") (PairedObj 4) None].
Proof.
  apply (normalize_fan_out
           (JObject [("data", JArray [JNumber 1; JNull; JString "z"])])
           [JNumber 1; JNull; JString "z"] false 4).
  reflexivity.
Defined.

Lemma normalized_unsplit_one (body : value) (simplify : bool) (i : nat) :
  exists x, normalized simplify false i body = [x]
            /\ pairedItem x = PairedObj i.
Proof.
  unfold normalized, normalize.
  repeat match goal with
         | |- context [if ?b then _ else _] => destruct b
         end;
    eexists; split; reflexivity.
Qed.

(** X5: With split disabled the normaliser gives exactly one item for any
    body whatever; with split enabled it gives exactly one item unless
    the data of the body is an array. *)
Theorem normalize_one_item (body : value) (simplify splitItems : bool)
  (i : nat) :
  splitItems = false \/ isArray (get body "data") = false ->
  exists x, normalized simplify splitItems i body = [x]
            /\ pairedItem x = PairedObj i /\ binary x = None.
Proof.
  intros H. unfold normalized, normalize. rewrite opt_get_get.
  destruct (isArray (get body "data")) eqn:A.
  - destruct H as [->|H]; [|discriminate].
    destruct simplify; eexists; repeat split.
  - destruct (truthy body && is_object_type body
              && truthy (get body "data") && is_object_type (get body "data"));
      eexists; repeat split.
Qed.

Lemma normalize_one_item_witness :
  exists x, normalized true false 0 list_body = [x]
            /\ pairedItem x = PairedObj 0 /\ binary x = None.
Proof. apply (normalize_one_item list_body true false 0). now left. Defined.

(** X6: A body whose data is an array, with split disabled and simplify
    enabled, gives the single item [{ data: [...] }] holding the
    flattened elements in order; the sibling fields of the body are
    not part of it. *)
Theorem normalize_list_wrapped (body : value) (l : list value) (i : nat) :
  get body "data" = JArray l ->
  normalized true false i body
  = [mkItem (JObject [("data", JArray (map simplifyEntity l))])
            (PairedObj i) None].
Proof.
  intros H. unfold normalized, normalize. rewrite opt_get_get, H.
  reflexivity.
Qed.

Lemma normalize_list_wrapped_witness :
  normalized true false 0
    (JObject [("links", JObject []); ("data", JArray [JNull])])
  = [mkItem
       (JObject
          [("data",
            JArray [JObject [("id", JUndefined); ("type", JUndefined);
                             ("href", JUndefined)]])])
       (PairedObj 0) None].
Proof.
  apply (normalize_list_wrapped
           (JObject [("links", JObject []); ("data", JArray [JNull])])
           [JNull] 0).
  reflexivity.
Defined.

(** X7: The single-entity shape: when the data of the body is an object,
    the only item is that object, flattened if simplify is enabled.
    When the data is null, false, a number or a string, the body is not
    of that shape and passes through whole, simplify or not. *)
Theorem normalize_single_entity (body : value) (simplify splitItems : bool)
  (i : nat) :
  (forall d, get body "data" = JObject d ->
     normalized simplify splitItems i body
     = [mkItem (if simplify then simplifyEntity (JObject d) else JObject d)
               (PairedObj i) None])
  /\
  (truthy (get body "data") && is_object_type (get body "data") = false ->
   normalized simplify splitItems i body = [mkItem body (PairedObj i) None]).
Proof.
  unfold normalized, normalize. rewrite opt_get_get. split.
  - intros d H. rewrite H.
    destruct body; simpl in H; try discriminate. reflexivity.
  - intros H.
    destruct (isArray (get body "data")) eqn:A.
    { destruct (get body "data"); discriminate. }
    rewrite <- andb_assoc, H, andb_false_r. reflexivity.
Qed.

Lemma normalize_single_entity_witness :
  normalized true true 0 (JObject [("data", JNull); ("meta", JNumber 1)])
  = [mkItem (JObject [("data", JNull); ("meta", JNumber 1)]) (PairedObj 0)
            None].
Proof.
  apply (proj2 (normalize_single_entity
                  (JObject [("data", JNull); ("meta", JNumber 1)])
                  true true 0)).
  reflexivity.
Defined.

(** ** What a run gives *)

Lemma normalize_frame simplify splitItems i body rd :
  normalize simplify splitItems i body rd
  = (rd ++ normalized simplify splitItems i body, Ok tt).
Proof.
  destruct (normalize_pushes simplify splitItems i body) as (out & E & _).
  unfold normalized. rewrite (E rd), (E []). reflexivity.
Qed.

Lemma normalized_no_binary simplify splitItems i body :
  Forall (fun x => binary x = None) (normalized simplify splitItems i body).
Proof.
  assert (P : pushes (fun x => binary x = None)
                     (normalize simplify splitItems i body)).
  { unfold normalize.
    repeat match goal with
           | |- pushes _ (if ?b then _ else _) => destruct b
           end;
      try (apply pushes_push; reflexivity).
    apply pushes_for_of. intros x. apply pushes_push. reflexivity. }
  destruct P as (out & E & F). unfold normalized. now rewrite (E []).
Qed.

(** X8: The [try] block of the Data Management node, when no host call
    fails, appends exactly the normalisation of the response, parsed
    first if it is a string.  A string that is not valid JSON is not
    an error: it is the json of the only item. *)
Theorem DM_try_block_normalizes JSON_parse dec
  (h : Host ApsDataManagement.Operation) i op req response simplify
  splitItems rd :
  getOperation h i = Ok op ->
  ApsDataManagement.build_request dec h i op = Ok req ->
  requestWithAuthentication h i credentials req = Ok response ->
  getBoolean h "simplify" i (Some true) = Ok simplify ->
  getBoolean h "splitItems" i (Some true) = Ok splitItems ->
  ApsDataManagement.try_block JSON_parse dec h i rd
  = (rd ++ normalized simplify splitItems i
             (parse_if_string JSON_parse response), Ok tt)
  /\
  (forall s, response = JString s -> JSON_parse s = None ->
     ApsDataManagement.try_block JSON_parse dec h i rd
     = (rd ++ [mkItem (JString s) (PairedObj i) None], Ok tt)).
Proof.
  intros O R T S1 S2.
  assert (E : ApsDataManagement.try_block JSON_parse dec h i rd
              = (rd ++ normalized simplify splitItems i
                         (parse_if_string JSON_parse response), Ok tt)).
  { unfold ApsDataManagement.try_block.
    rewrite (bind_lift_ok _ _ _ _ O), (bind_lift_ok _ _ _ _ R),
      (bind_lift_ok _ _ _ _ T).
    cbv zeta.
    rewrite (bind_lift_ok _ _ _ _ S1), (bind_lift_ok _ _ _ _ S2).
    apply normalize_frame. }
  split; [exact E|].
  intros s -> P. rewrite E. simpl. rewrite P.
  unfold normalized, normalize. simpl. now rewrite !andb_false_r.
Qed.

(** X9: The Model Derivative node neither flattens nor splits: unless the
    operation is the thumbnail download and the response a buffer, the
    only item of a successful [try] block is the response itself,
    parsed if it is a string, with no binary attachment. *)
Theorem MD_try_block_passes_through JSON_parse
  (h : Host ApsModelDerivative.Operation) i op urn req response rd :
  getOperation h i = Ok op ->
  getString h "urn" i None = Ok urn ->
  ApsModelDerivative.build_request h i op urn = Ok req ->
  requestWithAuthentication h i credentials req = Ok response ->
  ApsModelDerivative.is_getThumbnail op && isBuffer response = false ->
  ApsModelDerivative.try_block JSON_parse h i rd
  = (rd ++ [mkItem (parse_if_string JSON_parse response) (PairedObj i) None],
     Ok tt).
Proof.
  intros O U R T C. unfold ApsModelDerivative.try_block.
  rewrite (bind_lift_ok _ _ _ _ O), (bind_lift_ok _ _ _ _ U),
    (bind_lift_ok _ _ _ _ R), (bind_lift_ok _ _ _ _ T).
  replace (ApsModelDerivative.is_getThumbnail op && truthy response
           && isBuffer response) with false; [reflexivity|].
  destruct (ApsModelDerivative.is_getThumbnail op); [|reflexivity].
  simpl in C. rewrite C. now rewrite andb_false_r.
Qed.

Lemma DM_try_block_normalizes_witness :
  ApsDataManagement.try_block no_parse no_decode text_host 0 []
  = ([mkItem (JString "Bad Gateway") (PairedObj 0) None], Ok tt).
Proof.
  refine (proj2 (DM_try_block_normalizes no_parse no_decode text_host 0
                   ApsDataManagement.getHubs _ (JString "Bad Gateway")
                   true true [] eq_refl eq_refl eq_refl eq_refl eq_refl)
                "Bad Gateway" eq_refl eq_refl).
Defined.

Lemma MD_try_block_passes_through_witness :
  ApsModelDerivative.try_block no_parse (manifests_host true) 0 []
  = ([mkItem (JObject [("status", JString "success")]) (PairedObj 0) None],
     Ok tt).
Proof.
  refine (MD_try_block_passes_through no_parse (manifests_host true) 0
            ApsModelDerivative.getManifest "dXJu" _
            (JObject [("status", JString "success")]) []
            eq_refl eq_refl eq_refl eq_refl eq_refl).
Defined.

Lemma thumbnail_buffer_item_witness :
  ApsModelDerivative.try_block no_parse thumbnail_host 0 []
  = ([mkItem (JObject [("thumbnail", JString "AQI=");
                       ("contentType", JString "image/png")])
             (PairedObj 0)
             (Some (JObject
                      [("data",
                        JObject [("data", JBuffer [x01; x02]);
                                 ("mimeType", JString "image/png");
                                 ("fileName", JString "thumbnail.png")])]))],
     Ok tt).
Proof.
  refine (thumbnail_buffer_item no_parse thumbnail_host 0 "dXJu" _
            [x01; x02] _ [] eq_refl eq_refl eq_refl eq_refl eq_refl).
Defined.

Section LoopInvariant.
Variable P : OutputItem -> Prop.
Variable tb : nat -> M unit.
Variable cont : bool.
Hypothesis tb_keeps :
  forall i rd, Forall P rd -> Forall P (fst (tb i rd)).
Hypothesis error_item_ok : forall msg i, P (error_item msg i).

Lemma loop_Forall n : forall i rd,
  Forall P rd -> Forall P (fst (loop tb cont n i rd)).
Proof.
  induction n as [|n IH]; intros i rd F; [exact F|].
  simpl. unfold iteration. pose proof (tb_keeps i rd F) as K.
  destruct (tb i rd) as [rd' [[]|msg]]; simpl in K.
  - now apply IH.
  - destruct cont; [|exact K].
    apply IH. apply Forall_app. split; [exact K|].
    constructor; [apply error_item_ok|constructor].
Qed.
End LoopInvariant.

(** X11: No item of any run of the Data Management node has a binary
    attachment, whatever the operations and the responses are. *)
Theorem DM_never_binary JSON_parse dec
  (h : Host ApsDataManagement.Operation) :
  Forall (fun x => binary x = None)
         (fst (ApsDataManagement.execute JSON_parse dec h)).
Proof.
  unfold ApsDataManagement.execute. apply loop_Forall; [|reflexivity|constructor].
  intros i rd F. unfold ApsDataManagement.try_block, bind, lift.
  repeat match goal with
         | |- context [match ?r with Ok _ => _ | Raise _ => _ end] =>
             destruct r; [|exact F]
         end.
  rewrite normalize_frame. apply Forall_app. split; [exact F|].
  apply normalized_no_binary.
Qed.

Section OneItemPerInput.
Variable tb : nat -> M unit.
Variable cont : bool.
Hypothesis one :
  forall i,
    (exists error, forall rd, tb i rd = (rd, Raise error)) \/
    (exists x, (forall rd, tb i rd = (rd ++ [x], Ok tt))
               /\ pairedItemIndex x = i).

Lemma loop_one_item n : forall i rd,
  exists k, k <= n /\
    map pairedItemIndex (fst (loop tb cont n i rd))
    = map pairedItemIndex rd ++ seq i k /\
    (snd (loop tb cont n i rd) = None -> k = n) /\
    (forall e, snd (loop tb cont n i rd) = Some e ->
       cont = false /\ k < n /\
       exists error,
         (forall rd', tb (i + k) rd' = (rd', Raise error)) /\
         e = new_NodeOperationError error (i + k)).
Proof.
  induction n as [|n IH]; intros i rd.
  - exists 0. simpl. rewrite app_nil_r.
    split; [lia|]. split; [reflexivity|]. split; [reflexivity|].
    discriminate.
  - simpl. unfold iteration.
    destruct (one i) as [[error E]|(x & E & X)]; rewrite E.
    + destruct cont eqn:C.
      * destruct (IH (S i) (rd ++ [error_item (message_of error) i]))
          as (k & L & Q & N & St).
        exists (S k). rewrite Q, map_app, <- app_assoc.
        split; [lia|]. split; [reflexivity|]. split.
        -- intros H. now rewrite (N H).
        -- intros e H. destruct (St e H) as (F & _). discriminate F.
      * exists 0. simpl. rewrite app_nil_r.
        split; [lia|]. split; [reflexivity|]. split; [discriminate|].
        intros e [= <-]. split; [reflexivity|]. split; [lia|].
        exists error. rewrite Nat.add_0_r. split; [exact E|reflexivity].
    + destruct (IH (S i) (rd ++ [x])) as (k & L & Q & N & St).
      exists (S k). rewrite Q, map_app, <- app_assoc. simpl. rewrite X.
      split; [lia|]. split; [reflexivity|]. split.
      * intros H. now rewrite (N H).
      * intros e H. destruct (St e H) as (F & Lk & error & Er & Ee).
        split; [exact F|]. split; [lia|].
        exists error. replace (i + S k) with (S i + k) by lia.
        split; [exact Er|exact Ee].
Qed.
End OneItemPerInput.

Lemma MD_try_block_one JSON_parse (h : Host ApsModelDerivative.Operation)
  i :
  (exists error, forall rd,
      ApsModelDerivative.try_block JSON_parse h i rd = (rd, Raise error)) \/
  (exists x,
      (forall rd,
          ApsModelDerivative.try_block JSON_parse h i rd
          = (rd ++ [x], Ok tt))
      /\ pairedItemIndex x = i).
Proof.
  unfold ApsModelDerivative.try_block, bind, lift.
  repeat match goal with
         | |- context [match ?r with Ok _ => _ | Raise _ => _ end] =>
             destruct r; [|left; eexists; reflexivity]
         end.
  match goal with |- context [if ?b then _ else _] => destruct b end.
  - match goal with
    | |- context [prepareBinaryData h ?r ?f ?m] =>
        destruct (prepareBinaryData h r f m); [|left; eexists; reflexivity]
    end.
    right. eexists. split; reflexivity.
  - right. eexists. split; reflexivity.
Qed.

(** X12: A run of the Model Derivative node gives exactly one item per input
    item it has processed, in the order of the input: the paired item
    indices of the output are 0, 1, ..., k - 1.  When the run returns,
    k is the number of input items.  When it throws,
    continue-on-failure is disabled, k is the index of the item whose
    [try] block threw, and the error thrown is
    [new NodeOperationError(node, error, { itemIndex: k })] for the
    error of that block: the caught error itself when it already is a
    NodeOperationError. *)
Theorem MD_one_item_per_input JSON_parse
  (h : Host ApsModelDerivative.Operation) :
  exists k, k <= List.length (getInputData h) /\
    map pairedItemIndex (fst (ApsModelDerivative.execute JSON_parse h))
    = seq 0 k /\
    (snd (ApsModelDerivative.execute JSON_parse h) = None ->
     k = List.length (getInputData h)) /\
    (forall e, snd (ApsModelDerivative.execute JSON_parse h) = Some e ->
       continueOnFail h = false /\ k < List.length (getInputData h) /\
       exists error,
         (forall rd,
             ApsModelDerivative.try_block JSON_parse h k rd
             = (rd, Raise error)) /\
         e = new_NodeOperationError error k).
Proof.
  exact (loop_one_item _ (continueOnFail h) (MD_try_block_one JSON_parse h)
           (List.length (getInputData h)) 0 []).
Qed.

Lemma DM_try_block_one_unsplit JSON_parse dec
  (h : Host ApsDataManagement.Operation) :
  (forall i, getBoolean h "splitItems" i (Some true) <> Ok true) ->
  forall i,
    (exists error, forall rd,
        ApsDataManagement.try_block JSON_parse dec h i rd
        = (rd, Raise error)) \/
    (exists x,
        (forall rd,
            ApsDataManagement.try_block JSON_parse dec h i rd
            = (rd ++ [x], Ok tt))
        /\ pairedItemIndex x = i).
Proof.
  intros H i. unfold ApsDataManagement.try_block, bind, lift.
  repeat match goal with
         | |- context [match ?r with Ok _ => _ | Raise _ => _ end] =>
             destruct r eqn:?; [|left; eexists; reflexivity]
         end.
  match goal with
  | E : getBoolean h "splitItems" i (Some true) = Ok ?b |- _ =>
      destruct b; [now destruct (H i)|]
  end.
  right.
  match goal with
  | |- context [normalize ?s false i ?b] =>
      destruct (normalized_unsplit_one b s i) as (x & Nx & X)
  end.
  exists x. split.
  - intros rd. rewrite normalize_frame, Nx. reflexivity.
  - unfold pairedItemIndex. now rewrite X.
Qed.

(** X13: The same holds for the Data Management node when split is disabled
    for every item: the output has exactly one item per processed
    input item, whatever the shapes of the responses; when the run
    throws, the error is the one built from the error of the [try]
    block of item k. *)
Theorem DM_one_item_per_input_unsplit JSON_parse dec
  (h : Host ApsDataManagement.Operation) :
  (forall i, getBoolean h "splitItems" i (Some true) <> Ok true) ->
  exists k, k <= List.length (getInputData h) /\
    map pairedItemIndex (fst (ApsDataManagement.execute JSON_parse dec h))
    = seq 0 k /\
    (snd (ApsDataManagement.execute JSON_parse dec h) = None ->
     k = List.length (getInputData h)) /\
    (forall e, snd (ApsDataManagement.execute JSON_parse dec h) = Some e ->
       continueOnFail h = false /\ k < List.length (getInputData h) /\
       exists error,
         (forall rd,
             ApsDataManagement.try_block JSON_parse dec h k rd
             = (rd, Raise error)) /\
         e = new_NodeOperationError error k).
Proof.
  intros H.
  exact (loop_one_item _ (continueOnFail h)
           (DM_try_block_one_unsplit JSON_parse dec h H)
           (List.length (getInputData h)) 0 []).
Qed.

Lemma DM_one_item_per_input_unsplit_witness :
  exists k, k <= 3 /\
    map pairedItemIndex
        (fst (ApsDataManagement.execute no_parse no_decode
                (unsplit_host true)))
    = seq 0 k /\
    (snd (ApsDataManagement.execute no_parse no_decode (unsplit_host true))
     = None -> k = 3) /\
    (forall e,
        snd (ApsDataManagement.execute no_parse no_decode (unsplit_host true))
        = Some e ->
        true = false /\ k < 3 /\
        exists error,
          (forall rd,
              ApsDataManagement.try_block no_parse no_decode
                (unsplit_host true) k rd = (rd, Raise error)) /\
          e = new_NodeOperationError error k).
Proof.
  apply (DM_one_item_per_input_unsplit no_parse no_decode (unsplit_host true)).
  intros i. simpl. discriminate.
Defined.

(** ** Where errors come from *)

Lemma encodeURIComponent_call_Raise s error :
  encodeURIComponent_call s = Raise error ->
  error = URIError /\ has_lone_surrogate s = true.
Proof.
  unfold encodeURIComponent_call.
  destruct (has_lone_surrogate s); [|discriminate].
  intros [= <-]. now split.
Qed.

Ltac blame_parameter :=
  match goal with
  | E : getString _ ?n _ _ = Raise ?m |- parameter_error _ _ ?m =>
      exists n; left; eexists; exact E
  | E : getBoolean _ ?n _ _ = Raise ?m |- parameter_error _ _ ?m =>
      exists n; right; left; eexists; exact E
  | E : getNumber _ ?n _ _ = Raise ?m |- parameter_error _ _ ?m =>
      exists n; right; right; left; eexists; exact E
  | E : getStrings _ ?n _ _ = Raise ?m |- parameter_error _ _ ?m =>
      exists n; right; right; right; eexists; exact E
  end.

Ltac blame_surrogate E :=
  let Hs := fresh "Hs" in
  apply encodeURIComponent_call_Raise in E; destruct E as [-> Hs];
  split; [reflexivity|];
  first [ left; exact Hs
        | right; do 3 eexists; split; [|exact Hs]; eassumption
        | do 3 eexists; split; [|exact Hs]; eassumption ].

Ltac read_or_blame :=
  repeat match goal with
  | |- context [rbind ?r _] =>
      match r with
      | getString _ _ _ _ =>
          destruct r eqn:?; cbn [rbind];
          try (intros [= <-]; left; blame_parameter)
      | getBoolean _ _ _ _ =>
          destruct r eqn:?; cbn [rbind];
          try (intros [= <-]; left; blame_parameter)
      | getNumber _ _ _ _ =>
          destruct r eqn:?; cbn [rbind];
          try (intros [= <-]; left; blame_parameter)
      | getStrings _ _ _ _ =>
          destruct r eqn:?; cbn [rbind];
          try (intros [= <-]; left; blame_parameter)
      | encodeURIComponent_call _ =>
          let E := fresh "E" in
          destruct r eqn:E; cbn [rbind];
          try (intros [= <-]; right; blame_surrogate E)
      | (if ?b then _ else _) => destruct b; cbn [rbind]
      end
  end.

Lemma DM_build_request_error dec (h : Host ApsDataManagement.Operation)
  i op error :
  ApsDataManagement.build_request dec h i op = Raise error ->
  parameter_error h i error \/
  (error = URIError /\ malformed_parameter h i).
Proof.
  unfold ApsDataManagement.build_request, ApsDataManagement.switch_url,
    malformed_parameter.
  destruct op; cbn [rbind]; read_or_blame; discriminate.
Qed.

Lemma MD_build_request_error (h : Host ApsModelDerivative.Operation)
  i op urn error :
  ApsModelDerivative.build_request h i op urn = Raise error ->
  parameter_error h i error \/
  (error = URIError /\
   (has_lone_surrogate urn = true \/ malformed_parameter h i)).
Proof.
  unfold ApsModelDerivative.build_request, malformed_parameter.
  destruct op; cbn [rbind]; read_or_blame; discriminate.
Qed.

(** X14: The normaliser never throws.  When the [try] block of either node
    throws, the error is that of a failed host call (the read of the
    operation, the read of a parameter, the transport, or, for the
    thumbnail, the preparation of the binary data), or it is the
    URIError that [encodeURIComponent] throws on a lone surrogate, and
    then a string parameter of the item holds one. *)
Theorem try_block_errors_are_host_or_URI_errors :
  (forall simplify splitItems i body rd,
      snd (normalize simplify splitItems i body rd) = Ok tt)
  /\
  (forall JSON_parse dec (h : Host ApsDataManagement.Operation) i rd error,
      snd (ApsDataManagement.try_block JSON_parse dec h i rd) = Raise error ->
      getOperation h i = Raise error \/ parameter_error h i error \/
      (exists req,
          requestWithAuthentication h i credentials req = Raise error) \/
      (error = URIError /\ malformed_parameter h i))
  /\
  (forall JSON_parse (h : Host ApsModelDerivative.Operation) i rd error,
      snd (ApsModelDerivative.try_block JSON_parse h i rd) = Raise error ->
      getOperation h i = Raise error \/ parameter_error h i error \/
      (exists req,
          requestWithAuthentication h i credentials req = Raise error) \/
      (exists data,
          prepareBinaryData h data "thumbnail.png" "image/png"
          = Raise error) \/
      (error = URIError /\ malformed_parameter h i)).
Proof.
  split; [|split].
  - intros. now rewrite normalize_frame.
  - intros JSON_parse dec h i rd error.
    unfold ApsDataManagement.try_block, bind, lift.
    destruct (getOperation h i) as [op|m] eqn:O;
      [|intros [= <-]; now left].
    destruct (ApsDataManagement.build_request dec h i op) as [req|m] eqn:R.
    2:{ intros [= <-].
        destruct (DM_build_request_error dec h i op m R) as [P|U];
          [right; left; exact P|right; right; right; exact U]. }
    destruct (requestWithAuthentication h i credentials req) as [resp|m] eqn:T;
      [|intros [= <-]; right; right; left; now exists req].
    destruct (getBoolean h "simplify" i (Some true)) as [s|m] eqn:S1;
      [|intros [= <-]; right; left; blame_parameter].
    destruct (getBoolean h "splitItems" i (Some true)) as [sp|m] eqn:S2;
      [|intros [= <-]; right; left; blame_parameter].
    rewrite normalize_frame. discriminate.
  - intros JSON_parse h i rd error.
    unfold ApsModelDerivative.try_block, bind, lift.
    destruct (getOperation h i) as [op|m] eqn:O;
      [|intros [= <-]; now left].
    destruct (getString h "urn" i None) as [urn|m] eqn:U;
      [|intros [= <-]; right; left; blame_parameter].
    destruct (ApsModelDerivative.build_request h i op urn) as [req|m] eqn:R.
    2:{ intros [= <-].
        destruct (MD_build_request_error h i op urn m R)
          as [P|[-> [Hs|Hm]]].
        - right; left; exact P.
        - do 4 right. split; [reflexivity|].
          exists "urn", None, urn. now split.
        - do 4 right. now split. }
    destruct (requestWithAuthentication h i credentials req) as [resp|m] eqn:T;
      [|intros [= <-]; right; right; left; now exists req].
    match goal with |- context [if ?b then _ else _] => destruct b end;
      [|discriminate].
    destruct (prepareBinaryData h resp "thumbnail.png" "image/png")
      as [data|m] eqn:B; [discriminate|].
    intros [= <-]. right; right; right; left. now exists resp.
Qed.

Lemma try_block_errors_are_host_or_URI_errors_witness :
  getOperation surrogate_host 0 = Raise URIError
  \/ parameter_error surrogate_host 0 URIError
  \/ (exists req,
        requestWithAuthentication surrogate_host 0 credentials req
        = Raise URIError)
  \/ (URIError = URIError /\ malformed_parameter surrogate_host 0).
Proof.
  exact (proj1 (proj2 try_block_errors_are_host_or_URI_errors)
           no_parse no_decode surrogate_host 0 [] URIError eq_refl).
Defined.

(** ** The shape of the requests *)

Ltac built :=
  cbn [rbind]; read_params; try discriminate; intros [= <-].

(** X15: Every request of the Data Management node: the method is GET for
    the reads, POST for the bucket creation, PUT for upload and copy,
    DELETE for the removals; only the bucket creation and the upload
    carry a body; the response is asked as parsed JSON except for
    upload and download; only the download asks for a raw buffer
    ([encoding: null]); only the bucket listing has a query string. *)
Theorem DM_request_shape dec (h : Host ApsDataManagement.Operation)
  i op req :
  ApsDataManagement.build_request dec h i op = Ok req ->
  get req "method" = JString (DM_method op) /\
  has_field req "body"
  = DM_is op ApsDataManagement.createBucket
    || DM_is op ApsDataManagement.uploadObject /\
  get req "json"
  = JBool (negb (DM_is op ApsDataManagement.uploadObject
                 || DM_is op ApsDataManagement.downloadObject)) /\
  has_field req "encoding" = DM_is op ApsDataManagement.downloadObject /\
  has_field req "qs" = DM_is op ApsDataManagement.listBuckets.
Proof.
  unfold ApsDataManagement.build_request, ApsDataManagement.switch_url.
  destruct op; built; repeat split.
Qed.

Lemma DM_request_shape_witness :
  exists req,
    ApsDataManagement.build_request no_decode items_host 0
      ApsDataManagement.getItems = Ok req
    /\ get req "method" = JString "GET" /\ has_field req "body" = false.
Proof.
  eexists. split; [reflexivity|].
  destruct (DM_request_shape no_decode items_host 0
              ApsDataManagement.getItems _ eq_refl) as (Hm & Hb & _).
  split; [exact Hm|exact Hb].
Defined.

(** X16: The headers of the Data Management requests: the JSON:API [Accept]
    header is on every request but the bucket creation and the upload,
    which carry a [Content-Type] instead; the region travels as a
    header, on the bucket listing and the bucket creation only, with
    the value of the region parameter; it is never in the query
    string. *)
Theorem DM_request_headers dec (h : Host ApsDataManagement.Operation)
  i op req :
  ApsDataManagement.build_request dec h i op = Ok req ->
  let create_or_upload :=
    DM_is op ApsDataManagement.createBucket
    || DM_is op ApsDataManagement.uploadObject in
  let list_or_create :=
    DM_is op ApsDataManagement.listBuckets
    || DM_is op ApsDataManagement.createBucket in
  has_field (get req "headers") "Accept" = negb create_or_upload /\
  has_field (get req "headers") "Content-Type" = create_or_upload /\
  has_field (get req "headers") "region" = list_or_create /\
  (list_or_create = true ->
   get (get req "headers") "region" = JString (text_value h i "region" "US"))
  /\ has_field (get req "qs") "region" = false.
Proof.
  unfold ApsDataManagement.build_request, ApsDataManagement.switch_url,
    text_value.
  destruct op; built; cbv zeta; repeat split; try discriminate.
  all: intros _;
    repeat match goal with
           | E : getString _ "region" _ _ = Ok _ |- _ => rewrite E; clear E
           end;
    reflexivity.
Qed.

Lemma DM_request_headers_witness :
  exists req,
    ApsDataManagement.build_request no_decode buckets_host 0
      ApsDataManagement.listBuckets = Ok req
    /\ get (get req "headers") "region" = JString "EMEA"
    /\ has_field (get req "qs") "region" = false.
Proof.
  eexists. split; [reflexivity|].
  destruct (DM_request_headers no_decode buckets_host 0
              ApsDataManagement.listBuckets _ eq_refl) as (_ & _ & _ & Hr & Hq).
  split; [exact (Hr eq_refl)|exact Hq].
Defined.

(** X17: Every request of the Model Derivative node: POST for the job,
    DELETE for the manifest removal, GET otherwise; only the job has a
    body; only the thumbnail asks for a raw buffer; the query string is
    there for the thumbnail, and for the job and the metadata tree
    exactly when their force flag is set; the manifest request has
    headers exactly when the accept-encoding parameter is not empty. *)
Theorem MD_request_shape (h : Host ApsModelDerivative.Operation)
  i op urn req :
  ApsModelDerivative.build_request h i op urn = Ok req ->
  get req "method" = JString (MD_method op) /\
  has_field req "body"
  = match op with ApsModelDerivative.createJob => true | _ => false end /\
  get req "json" = JBool (negb (ApsModelDerivative.is_getThumbnail op)) /\
  has_field req "encoding" = ApsModelDerivative.is_getThumbnail op /\
  has_field req "qs"
  = match op with
    | ApsModelDerivative.createJob => flag_value h i "forceRegenerate"
    | ApsModelDerivative.getMetadataTree => flag_value h i "forceGetTree"
    | ApsModelDerivative.getThumbnail => true
    | _ => false
    end /\
  has_field req "headers"
  = match op with
    | ApsModelDerivative.createJob | ApsModelDerivative.getThumbnail => true
    | ApsModelDerivative.getManifest =>
        negb (text_value h i "acceptEncoding" "" =? "")
    | _ => false
    end.
Proof.
  unfold ApsModelDerivative.build_request, flag_value, text_value.
  destruct op; built;
    repeat match goal with
           | E : _ = Ok _ |- _ => rewrite E; clear E
           end;
    repeat match goal with
           | |- context [if ?b then _ else _] => destruct b eqn:?
           end;
    repeat split;
    simpl in *; try congruence.
Qed.

Lemma MD_request_shape_witness :
  exists req,
    ApsModelDerivative.build_request gzip_host 0
      ApsModelDerivative.getManifest "dXJu" = Ok req
    /\ get req "method" = JString "GET"
    /\ has_field req "headers" = true
    /\ has_field req "qs" = false.
Proof.
  eexists. split; [reflexivity|].
  destruct (MD_request_shape gzip_host 0 ApsModelDerivative.getManifest
              "dXJu" _ eq_refl) as (Hm & _ & _ & _ & Hq & Hh).
  split; [exact Hm|]. split; [exact Hh|exact Hq].
Defined.

(** ** The encoding of a parameter *)

Lemma percent_decode_encode_char c r :
  uriUnescaped c = false ->
  percent_decode (percent_encode c +++ r) = String c (percent_decode r).
Proof.
  each_ascii c; intros U; vm_compute in U; try discriminate U; reflexivity.
Qed.

Lemma percent_decode_encodeURIComponent s :
  percent_decode (encodeURIComponent s) = s.
Proof.
  induction s as [|c r IH]; [reflexivity|]. cbn [encodeURIComponent].
  destruct (uriUnescaped c) eqn:U.
  - simpl. now rewrite (unescaped_not_percent _ U), IH.
  - now rewrite (percent_decode_encode_char _ _ U), IH.
Qed.

(** X18: Two parameter values with the same encoded form are equal: two
    different identifiers never give the same path segment. *)
Theorem encodeURIComponent_injective (s1 s2 : string) :
  encodeURIComponent s1 = encodeURIComponent s2 -> s1 = s2.
Proof.
  intros H.
  rewrite <- (percent_decode_encodeURIComponent s1),
          <- (percent_decode_encodeURIComponent s2).
  now rewrite H.
Qed.

Lemma encodeURIComponent_injective_witness : "b.1/2" = "b.1/2".
Proof. apply encodeURIComponent_injective. reflexivity. Defined.

Lemma length_append a b :
  String.length (a +++ b) = String.length a + String.length b.
Proof. induction a; simpl; congruence. Qed.

Lemma unescaped_not_surrogate_lead c :
  uriUnescaped c = true -> (nat_of_ascii c =? 237)%nat = false.
Proof. each_ascii c; vm_compute; congruence. Qed.

Lemma unescaped_no_lone_surrogate s :
  forallb uriUnescaped (chars s) = true -> has_lone_surrogate s = false.
Proof.
  induction s as [|c r IH]; [reflexivity|]. simpl.
  intros H. apply andb_prop in H. destruct H as [U R].
  destruct r as [|d r']; [reflexivity|].
  rewrite (unescaped_not_surrogate_lead _ U). simpl. now apply IH.
Qed.

(** X19: A parameter made of letters, digits and the marks
    [- _ . ! ~ * ' ( )] only never makes [encodeURIComponent] throw
    and is inserted as it is.  Whenever the call returns, the encoded
    form has at least as many characters as the UTF-8 form of the
    parameter has bytes, and at most three times as many (the bound is
    in bytes, not in the length of the JavaScript string). *)
Theorem encodeURIComponent_growth (s : string) :
  (forallb uriUnescaped (chars s) = true ->
   encodeURIComponent_call s = Ok s) /\
  (forall s', encodeURIComponent_call s = Ok s' ->
     utf8_bytes s <= String.length s'
     /\ String.length s' <= 3 * utf8_bytes s).
Proof.
  split.
  - intros H. unfold encodeURIComponent_call.
    rewrite (unescaped_no_lone_surrogate s H). f_equal.
    induction s as [|c r IH]; [reflexivity|]. simpl in *.
    apply andb_prop in H. destruct H as [U R].
    now rewrite U, IH.
  - intros s' E. apply encodeURIComponent_call_Ok in E. subst s'.
    unfold utf8_bytes.
    induction s as [|c r IH]; simpl; [lia|].
    destruct (uriUnescaped c); simpl; lia.
Qed.

Lemma encodeURIComponent_growth_witness :
  encodeURIComponent_call "dXJuOmFkc2sub2JqZWN0cw"
  = Ok "dXJuOmFkc2sub2JqZWN0cw"
  /\ (2 <= String.length "%C3%A9" /\ String.length "%C3%A9" <= 3 * 2).
Proof.
  split.
  - apply (proj1 (encodeURIComponent_growth "dXJuOmFkc2sub2JqZWN0cw")).
    reflexivity.
  - exact (proj2 (encodeURIComponent_growth
                    (String (ascii_of_nat 195) (String (ascii_of_nat 169) "")))
                 "%C3%A9" eq_refl).
Defined.

(** ** The parameters [execute] reads and the description *)

Lemma find_property_In n props p :
  find_property n props = Some p -> In p props.
Proof.
  induction props as [|q r IH]; simpl; [discriminate|].
  destruct (n =? INodeProperties.name q).
  - intros [= ->]. now left.
  - intros H. right. now apply IH.
Qed.

Lemma supplied_by_name {Op} props current (h : Host Op) i n p :
  find_property n props = Some p ->
  displayed current p = true ->
  (forall q, In q props -> displayed current q = true -> supplied h i q) ->
  supplied h i p.
Proof. intros F D H. apply H; [exact (find_property_In _ _ _ F)|exact D]. Qed.

Ltac declared H h i n S :=
  lazymatch type of H with
  | (forall q, In q ?props -> displayed ?cur q = true -> _) =>
      pose proof (supplied_by_name props cur h i n _ eq_refl eq_refl H) as S
  end;
  cbn in S.

Ltac supply_one H h n i fb :=
  let S := fresh "S" in
  declared H h i n S;
  let E := fresh "E" in
  lazymatch fb with
  | None => destruct S as [? E]
  | Some ?d => destruct (S d) as [? E]; clear S
  end;
  rewrite E.

Ltac encode_or_blame :=
  repeat match goal with
  | |- context [rbind (encodeURIComponent_call ?x) _] =>
      let E := fresh "E" in
      destruct (encodeURIComponent_call x) eqn:E; cbn [rbind];
      [|right; blame_surrogate E]
  end.

Ltac supply H :=
  repeat match goal with
  | |- context [rbind ?r _] =>
      lazymatch r with
      | getString ?h ?n ?i ?fb => supply_one H h n i fb
      | getBoolean ?h ?n ?i ?fb => supply_one H h n i fb
      | getNumber ?h ?n ?i ?fb => supply_one H h n i fb
      | getStrings ?h ?n ?i ?fb => supply_one H h n i fb
      end; cbn [rbind]
  end.

Lemma DM_build_request_supplied dec (h : Host ApsDataManagement.Operation)
  i op :
  (forall p, In p DM_properties -> displayed (DM_current op) p = true ->
             supplied h i p) ->
  (exists req, ApsDataManagement.build_request dec h i op = Ok req) \/
  (ApsDataManagement.build_request dec h i op = Raise URIError /\
   malformed_parameter h i).
Proof.
  intros H.
  unfold ApsDataManagement.build_request, ApsDataManagement.switch_url.
  destruct op; cbn [rbind]; supply H; encode_or_blame;
    left; eexists; reflexivity.
Qed.

Lemma well_formed_not_malformed {Op} (h : Host Op) i :
  (forall name fallback v,
      getString h name i fallback = Ok v -> has_lone_surrogate v = false) ->
  ~ malformed_parameter h i.
Proof.
  intros W (name & fallback & v & E & Hs). rewrite (W _ _ _ E) in Hs.
  discriminate.
Qed.

(** X20: When the host has a value for every parameter the description
    displays for the operation (required ones read without a fallback,
    optional ones with one), [execute] meets no missing parameter: it
    reads no parameter that is hidden for the operation.  The request
    is then built, unless a string parameter holds a lone surrogate,
    on which [encodeURIComponent] throws its URIError; and the [try]
    block of the Data Management node can only fail with the error of
    the transport or with that URIError. *)
Theorem DM_displayed_parameters_suffice JSON_parse dec
  (h : Host ApsDataManagement.Operation) i op :
  getOperation h i = Ok op ->
  (forall p, In p DM_properties -> displayed (DM_current op) p = true ->
             supplied h i p) ->
  ((exists req, ApsDataManagement.build_request dec h i op = Ok req) \/
   (ApsDataManagement.build_request dec h i op = Raise URIError /\
    malformed_parameter h i)) /\
  ((forall name fallback v,
       getString h name i fallback = Ok v -> has_lone_surrogate v = false) ->
   exists req, ApsDataManagement.build_request dec h i op = Ok req) /\
  (forall rd error,
      snd (ApsDataManagement.try_block JSON_parse dec h i rd) = Raise error ->
      (exists req,
          requestWithAuthentication h i credentials req = Raise error) \/
      (error = URIError /\ malformed_parameter h i)).
Proof.
  intros O H.
  pose proof (DM_build_request_supplied dec h i op H) as B.
  split; [exact B|]. split.
  - intros W. destruct B as [B|[_ B]]; [exact B|].
    now destruct (well_formed_not_malformed h i W).
  - intros rd error. unfold ApsDataManagement.try_block, bind, lift.
    rewrite O. destruct B as [[req R]|[R Hm]]; rewrite R.
    + destruct (requestWithAuthentication h i credentials req) eqn:T;
        [|intros [= <-]; left; now exists req].
      declared H h i "simplify" S1. declared H h i "splitItems" S2.
      destruct (S1 true) as [s ->]. destruct (S2 true) as [sp ->].
      rewrite normalize_frame. discriminate.
    + intros [= <-]. right. now split.
Qed.

Lemma DM_displayed_parameters_suffice_witness :
  exists req,
    ApsDataManagement.build_request no_decode
      (generous_host ApsDataManagement.copyObject JNull) 0
      ApsDataManagement.copyObject = Ok req.
Proof.
  refine (proj1 (proj2 (DM_displayed_parameters_suffice no_parse no_decode
                   (generous_host ApsDataManagement.copyObject JNull) 0
                   ApsDataManagement.copyObject eq_refl _)) _).
  - intros p _ _. unfold supplied.
    destruct (INodeProperties.name p =? "operation");
      [eexists; reflexivity|].
    destruct (INodeProperties.type p), (INodeProperties.required p);
      intros; eexists; reflexivity.
  - intros name fallback v [= <-]. reflexivity.
Defined.

Ltac fail_at E :=
  repeat match goal with
  | |- context [rbind ?r _] =>
      match r with
      | getString _ _ _ _ => idtac
      | getBoolean _ _ _ _ => idtac
      | getNumber _ _ _ _ => idtac
      | getStrings _ _ _ _ => idtac
      end;
      first [ rewrite E; cbn [rbind]; eexists; reflexivity
            | destruct r eqn:?; cbn [rbind]; [|eexists; reflexivity] ]
  end.

(** X21: Every parameter the description marks as required and displays for
    the operation is read by the Data Management node, without a
    fallback: when the host has no value for it, no request is built
    and the [try] block throws before the transport is reached. *)
Theorem DM_required_parameters_needed JSON_parse dec
  (h : Host ApsDataManagement.Operation) i op p :
  getOperation h i = Ok op ->
  In p DM_properties ->
  INodeProperties.required p = true ->
  displayed (DM_current op) p = true ->
  (exists msg, getString h (INodeProperties.name p) i None = Raise msg) ->
  exists msg,
    ApsDataManagement.build_request dec h i op = Raise msg /\
    forall rd,
      ApsDataManagement.try_block JSON_parse dec h i rd = (rd, Raise msg).
Proof.
  intros O I R D [m E].
  assert (B : exists msg,
             ApsDataManagement.build_request dec h i op = Raise msg).
  { unfold ApsDataManagement.build_request, ApsDataManagement.switch_url.
    destruct op; simpl in I;
      repeat (destruct I as [<-|I];
              [cbn in R, E; vm_compute in D; try discriminate;
               cbn [rbind]; fail_at E|]);
      contradiction. }
  destruct B as [msg B]. exists msg. split; [exact B|].
  intros rd. unfold ApsDataManagement.try_block, bind, lift.
  now rewrite O, B.
Qed.

Lemma DM_required_parameters_needed_witness :
  exists msg,
    ApsDataManagement.build_request no_decode (projects_host true) 2
      ApsDataManagement.getProjects = Raise msg /\
    forall rd,
      ApsDataManagement.try_block no_parse no_decode (projects_host true) 2 rd
      = (rd, Raise msg).
Proof.
  refine (DM_required_parameters_needed no_parse no_decode
            (projects_host true) 2 ApsDataManagement.getProjects
            (INodeProperties.mk "hubId" PString (JString "") true []
               (for_operations ["getProjects"]))
            eq_refl _ eq_refl eq_refl _).
  - simpl. tauto.
  - eexists. reflexivity.
Defined.

Lemma MD_build_request_supplied (h : Host ApsModelDerivative.Operation)
  i op urn :
  (forall p, In p MD_properties -> displayed (MD_current h i op) p = true ->
             supplied h i p) ->
  (exists req, ApsModelDerivative.build_request h i op urn = Ok req) \/
  (ApsModelDerivative.build_request h i op urn = Raise URIError /\
   (has_lone_surrogate urn = true \/ malformed_parameter h i)).
Proof.
  intros H. unfold ApsModelDerivative.build_request.
  destruct op; cbn [rbind];
    try (supply H; encode_or_blame; left; eexists; reflexivity).
  (* createJob: views is displayed once the toggle is on *)
  declared H h i "advancedOutputSettings" A.
  destruct (A false) as [adv EA]. clear A.
  unfold MD_current, flag_value in H. rewrite EA in H.
  declared H h i "outputFormat" F. destruct F as [fmt ->].
  declared H h i "forceRegenerate" G. destruct (G false) as [force ->].
  rewrite EA. cbn [rbind]. left.
  destruct adv; [|eexists; reflexivity].
  declared H h i "views" V. destruct (V ["2d"; "3d"]) as [views ->].
  eexists. reflexivity.
Qed.

(** X22: The same for the Model Derivative node, where the views parameter
    is displayed, and read, only once the advanced-output-settings
    toggle is on: with a value for every displayed parameter no
    parameter is missing; the request is built unless the urn or the
    guid holds a lone surrogate, on which [encodeURIComponent] throws
    its URIError; and the [try] block can only fail with the error of
    the transport, with that of the preparation of the binary data of
    a thumbnail, or with that URIError. *)
Theorem MD_displayed_parameters_suffice JSON_parse
  (h : Host ApsModelDerivative.Operation) i op :
  getOperation h i = Ok op ->
  (forall p, In p MD_properties -> displayed (MD_current h i op) p = true ->
             supplied h i p) ->
  (exists urn,
      getString h "urn" i None = Ok urn /\
      ((exists req, ApsModelDerivative.build_request h i op urn = Ok req) \/
       (ApsModelDerivative.build_request h i op urn = Raise URIError /\
        malformed_parameter h i))) /\
  ((forall name fallback v,
       getString h name i fallback = Ok v -> has_lone_surrogate v = false) ->
   exists urn req,
     getString h "urn" i None = Ok urn /\
     ApsModelDerivative.build_request h i op urn = Ok req) /\
  (forall rd error,
      snd (ApsModelDerivative.try_block JSON_parse h i rd) = Raise error ->
      (exists req,
          requestWithAuthentication h i credentials req = Raise error) \/
      (exists data,
          prepareBinaryData h data "thumbnail.png" "image/png"
          = Raise error) \/
      (error = URIError /\ malformed_parameter h i)).
Proof.
  intros O H.
  assert (U : exists urn, getString h "urn" i None = Ok urn).
  { destruct op; declared H h i "urn" Hu; exact Hu. }
  destruct U as [urn U].
  assert (B : (exists req,
                  ApsModelDerivative.build_request h i op urn = Ok req) \/
              (ApsModelDerivative.build_request h i op urn = Raise URIError
               /\ malformed_parameter h i)).
  { destruct (MD_build_request_supplied h i op urn H) as [B|[B [Hs|Hm]]].
    - now left.
    - right. split; [exact B|]. exists "urn", None, urn. now split.
    - right. now split. }
  split; [exists urn; now split|]. split.
  - intros W. destruct B as [[req B]|[_ B]]; [now exists urn, req|].
    now destruct (well_formed_not_malformed h i W).
  - intros rd error. unfold ApsModelDerivative.try_block, bind, lift.
    rewrite O, U. destruct B as [[req R]|[R Hm]]; rewrite R.
    + destruct (requestWithAuthentication h i credentials req)
        as [resp|m] eqn:T; [|intros [= <-]; left; now exists req].
      match goal with |- context [if ?b then _ else _] => destruct b end;
        [|discriminate].
      destruct (prepareBinaryData h resp "thumbnail.png" "image/png")
        as [data|m] eqn:B; [discriminate|].
      intros [= <-]. right. left. now exists resp.
    + intros [= <-]. right. right. now split.
Qed.

Lemma MD_displayed_parameters_suffice_witness :
  exists urn req,
    getString (generous_host ApsModelDerivative.getMetadataTree JNull)
      "urn" 0 None = Ok urn /\
    ApsModelDerivative.build_request
      (generous_host ApsModelDerivative.getMetadataTree JNull) 0
      ApsModelDerivative.getMetadataTree urn = Ok req.
Proof.
  refine (proj1 (proj2 (MD_displayed_parameters_suffice no_parse
                   (generous_host ApsModelDerivative.getMetadataTree JNull) 0
                   ApsModelDerivative.getMetadataTree eq_refl _)) _).
  - intros p _ _. unfold supplied.
    destruct (INodeProperties.name p =? "operation");
      [eexists; reflexivity|].
    destruct (INodeProperties.type p), (INodeProperties.required p);
      intros; eexists; reflexivity.
  - intros name fallback v [= <-]. reflexivity.
Defined.

(** X23: Every parameter the description of the Model Derivative node marks
    as required and displays for the operation (the urn, the output
    format of a job, the guid of a metadata tree) is read without a
    fallback: when the host has no value for it the [try] block throws
    and nothing is pushed. *)
Theorem MD_required_parameters_needed JSON_parse
  (h : Host ApsModelDerivative.Operation) i op p :
  getOperation h i = Ok op ->
  In p MD_properties ->
  INodeProperties.required p = true ->
  displayed (MD_current h i op) p = true ->
  (exists msg, getString h (INodeProperties.name p) i None = Raise msg) ->
  exists msg, forall rd,
    ApsModelDerivative.try_block JSON_parse h i rd = (rd, Raise msg).
Proof.
  intros O I R D [m E].
  unfold ApsModelDerivative.try_block, bind, lift. rewrite O.
  simpl in I.
  repeat (destruct I as [<-|I]; [cbn in R, E; try discriminate R|]);
    try contradiction.
  - (* urn *)
    rewrite E. now exists m.
  - (* outputFormat *)
    destruct op; try discriminate D.
    destruct (getString h "urn" i None);
      [|eexists; reflexivity].
    unfold ApsModelDerivative.build_request. rewrite E. now exists m.
  - (* guid *)
    destruct op; try discriminate D.
    destruct (getString h "urn" i None);
      [|eexists; reflexivity].
    unfold ApsModelDerivative.build_request. rewrite E. now exists m.
Qed.

Lemma MD_required_parameters_needed_witness :
  exists msg, forall rd,
    ApsModelDerivative.try_block no_parse (manifests_host true) 2 rd
    = (rd, Raise msg).
Proof.
  refine (MD_required_parameters_needed no_parse (manifests_host true) 2
            ApsModelDerivative.getManifest
            (INodeProperties.mk "urn" PString (JString "") true []
               (for_operations
                  ["getManifest"; "deleteManifest"; "getMetadata";
                   "getMetadataTree"; "getThumbnail"; "createJob"]))
            eq_refl _ eq_refl eq_refl _).
  - simpl. tauto.
  - eexists. reflexivity.
Defined.
